(** * Bank HTTP service with middleware: a shallow embedding

  The Go program keeps two process-wide counters, [money] and [bank]
  (both [atomic.Int64]), guarded by one [sync.Mutex], and serves two
  handlers, [payHandler] and [saveHandler], behind the middleware chain
  [RequestIDMiddleware (LoggingMiddleware handler)].

  Conventions of the embedding:
  - a Go [int] / [int64] is a [Z] together with its two's-complement
    wrap-around [int64.wrap]; the program is taken as built for a 64-bit
    target ([strconv.IntSize = 64]);
  - a Go [string] or [[]byte] is a [string] (a list of bytes);
  - the handlers mutate the package-level variables and the response
    writer they are given: here they take and return them explicitly;
  - [fmt.Printf] appends to the process's standard output: each call
    site is one constructor of [LogLine], carrying the arguments that are
    printed (the elapsed wall-clock time of the "End" line is left out);
  - [http.ResponseWriter] is a Go interface and becomes a type class. *)

From Stdlib Require Import ZArith String Ascii List Bool Lia DecimalString.
From stdpp Require Import base option list gmap strings.

Local Open Scope string_scope.
Local Open Scope Z_scope.

(** ** 64-bit signed integers *)

Module int64.

Definition min : Z := - 2 ^ 63.
Definition max : Z := 2 ^ 63 - 1.

Definition in_range (z : Z) : Prop := min <= z <= max.

(** The value of a mathematical integer once stored in 64 bits. *)
Definition wrap (z : Z) : Z := (z + 2 ^ 63) mod 2 ^ 64 - 2 ^ 63.

(** [x + y] and [-x] as Go computes them on [int64]. *)
Definition add (x y : Z) : Z := wrap (x + y).
Definition neg (x : Z) : Z := wrap (- x).

End int64.

(** ** The parts of the Go standard library the program calls *)

Module strconv.

Definition is_digit (c : ascii) : bool :=
  let n := Z.of_nat (nat_of_ascii c) in (48 <=? n) && (n <=? 57).

Definition digit_val (c : ascii) : Z := Z.of_nat (nat_of_ascii c) - 48.

(** The digit loop of [ParseUint] in base 10: any other byte is a
    syntax error. *)
Fixpoint digits (s : string) (acc : Z) : option Z :=
  match s with
  | EmptyString => Some acc
  | String c s' =>
      if is_digit c then digits s' (acc * 10 + digit_val c) else None
  end.

(** [strconv.Atoi]: an optional sign, then at least one decimal digit,
    the value within the range of [int]; [None] stands for a non-nil
    error (syntax or range). *)
Definition Atoi (s : string) : option Z :=
  match s with
  | EmptyString => None
  | String c rest =>
      let neg := Ascii.eqb c "-" in
      let ds := if neg || Ascii.eqb c "+" then rest else s in
      match ds with
      | EmptyString => None
      | _ =>
          match digits ds 0 with
          | None => None
          | Some un =>
              if neg
              then (if un <=? 2 ^ 63 then Some (- un) else None)
              else (if un <? 2 ^ 63 then Some un else None)
          end
      end
  end.

(** [strconv.Itoa]: the decimal rendering, with a leading minus sign
    for a negative number. *)
Definition Itoa (z : Z) : string := NilZero.string_of_int (Z.to_int z).

End strconv.

Module http.

(** [http.Header]: a map from header names to their values. [Get] and
    [Set] put the name in canonical form first; the program uses one
    name only, which stands for its canonical form here. *)
Abbreviation Header := (gmap string (list string)).

Definition Get (h : Header) (key : string) : string :=
  match h !! key with
  | Some (v :: _) => v
  | _ => ""
  end.

Definition Set_ (h : Header) (key value : string) : Header :=
  <[key := [value]]> h.

(** [http.ResponseWriter]: [Header] hands out the header map, which the
    caller mutates in place ([PutHeader] stores the mutated map back). *)
Class ResponseWriter (W : Type) := {
  Header_ : W -> Header;
  PutHeader : Header -> W -> W;
  Write : string -> W -> W;
  WriteHeader : Z -> W -> W
}.

End http.

Module context.

(** Context keys are compared with their type: a key of this package's
    type [RequestIDKey] never equals a key of another type. *)
Inductive Key :=
| RequestIDKey (s : string)
| ForeignKey (s : string).

Inductive any :=
| AnyString (s : string)
| AnyInt (z : Z).

Definition key_eqb (a b : Key) : bool :=
  match a, b with
  | RequestIDKey x, RequestIDKey y => String.eqb x y
  | ForeignKey x, ForeignKey y => String.eqb x y
  | _, _ => false
  end.

(** A context is the chain of its [WithValue] bindings, innermost
    first. *)
Definition Context := list (Key * any).

Definition Background : Context := [].

Definition WithValue (parent : Context) (k : Key) (v : any) : Context :=
  (k, v) :: parent.

Fixpoint Value (ctx : Context) (k : Key) : option any :=
  match ctx with
  | [] => None
  | (k', v) :: parent => if key_eqb k' k then Some v else Value parent k
  end.

End context.

Module base64.

Definition alphabet : string :=
  "ABCDEFGHIJKLMNOPQRSTUVWXYZabcdefghijklmnopqrstuvwxyz0123456789-_".

Definition sextet (n : Z) : ascii :=
  match String.get (Z.to_nat (Z.land n 63)) alphabet with
  | Some c => c
  | None => "A"%char
  end.

Definition byteZ (b : Byte.byte) : Z := Z.of_N (Byte.to_N b).

(** [base64.RawURLEncoding.EncodeToString]: the URL-safe alphabet, no
    padding. *)
Fixpoint EncodeToString (src : list Byte.byte) : string :=
  match src with
  | [] => ""
  | [a] =>
      let v := Z.shiftl (byteZ a) 16 in
      String (sextet (Z.shiftr v 18)) (String (sextet (Z.shiftr v 12)) "")
  | [a; b] =>
      let v := Z.lor (Z.shiftl (byteZ a) 16) (Z.shiftl (byteZ b) 8) in
      String (sextet (Z.shiftr v 18))
        (String (sextet (Z.shiftr v 12))
           (String (sextet (Z.shiftr v 6)) ""))
  | a :: b :: c :: rest =>
      let v := Z.lor (Z.lor (Z.shiftl (byteZ a) 16) (Z.shiftl (byteZ b) 8))
                 (byteZ c) in
      String (sextet (Z.shiftr v 18))
        (String (sextet (Z.shiftr v 12))
           (String (sextet (Z.shiftr v 6))
              (String (sextet v) (EncodeToString rest))))
  end.

End base64.

Module io.

(** An [io.Reader] is identified with what [io.ReadAll] returns on it:
    the bytes read and, when reading failed, the text of the error. *)
Definition Reader : Type := string * option string.

Definition ReadAll (r : Reader) : string * option string := r.

End io.

Module rand.

(** The outcomes of the successive calls of [crypto/rand.Read]: a call
    either fails or fills the buffer, byte [i] of it being [f i]. *)
Definition Source : Type := nat -> option (nat -> Byte.byte).

(** [rand.Read b] on a buffer of [len] bytes: the filled buffer (or
    [None] for an error) and the source left for the next calls. *)
Definition Read (len : nat) (src : Source) : option (list Byte.byte) * Source :=
  (match src O with
   | Some f => Some (map f (seq 0 len))
   | None => None
   end,
   fun n => src (S n)).

End rand.

(** ** Package-level state and the effects of the program *)

(** One constructor per [fmt.Printf] call site, with the printed
    arguments. *)
Inductive LogLine :=
| LogStart (requestID method path : string)
| LogEnd (requestID method path : string) (status : Z)
| LogReadError (requestID msg : string)
| LogParseError (requestID : string)
| LogPayment (requestID : string) (amount balance : Z)
| LogLowBalance (requestID : string) (amount balance : Z)
| LogTransfer (requestID : string) (amount balance bankv : Z)
| LogLowTransfer (requestID : string) (amount balance : Z).

(** [mtx], [money] and [bank] are the three package-level variables of
    main.go; [stdout] and [entropy] are the process's standard output and
    random source. *)
Record Globals := mkGlobals {
  mtx : bool;
  money : Z;
  bank : Z;
  stdout : list LogLine;
  entropy : rand.Source
}.

Definition set_mtx (b : bool) (g : Globals) : Globals :=
  mkGlobals b (money g) (bank g) (stdout g) (entropy g).
Definition set_money (z : Z) (g : Globals) : Globals :=
  mkGlobals (mtx g) z (bank g) (stdout g) (entropy g).
Definition set_bank (z : Z) (g : Globals) : Globals :=
  mkGlobals (mtx g) (money g) z (stdout g) (entropy g).
Definition set_stdout (l : list LogLine) (g : Globals) : Globals :=
  mkGlobals (mtx g) (money g) (bank g) l (entropy g).
Definition set_entropy (e : rand.Source) (g : Globals) : Globals :=
  mkGlobals (mtx g) (money g) (bank g) (stdout g) e.

(** A piece of Go code that ends with a value of type [R]: the sequence
    of its operations on the shared state, one constructor per atomic
    operation, each followed by the rest of the code. What the code does
    to values of its own (the request, the response writer) is computed in
    between. *)
Inductive Prog (R : Type) : Type :=
| Return (r : R)
| mtx_Lock (k : Prog R)
| mtx_Unlock (k : Prog R)
| money_Load (k : Z -> Prog R)
| money_Add (delta : Z) (k : Prog R)
| bank_Load (k : Z -> Prog R)
| bank_Add (delta : Z) (k : Prog R)
| fmt_Printf (l : LogLine) (k : Prog R)
| rand_Read (len : nat) (k : option (list Byte.byte) -> Prog R).
Arguments Return {R} _.
Arguments mtx_Lock {R} _.
Arguments mtx_Unlock {R} _.
Arguments money_Load {R} _.
Arguments money_Add {R} _ _.
Arguments bank_Load {R} _.
Arguments bank_Add {R} _ _.
Arguments fmt_Printf {R} _ _.
Arguments rand_Read {R} _ _.

Declare Scope prog_scope.
Delimit Scope prog_scope with prog.
Bind Scope prog_scope with Prog.
Notation "x <- c ;; k" := (c (fun x => k))
  (at level 100, c at next level, k at level 200, right associativity,
   only parsing) : prog_scope.
Notation "c ;; k" := (c k)
  (at level 100, k at level 200, right associativity, only parsing) : prog_scope.
Local Open Scope prog_scope.

(** Calling a function: its code, then the caller's. *)
Fixpoint call {A R : Type} (p : Prog A) (k : A -> Prog R) : Prog R :=
  match p with
  | Return a => k a
  | mtx_Lock p' => mtx_Lock (call p' k)
  | mtx_Unlock p' => mtx_Unlock (call p' k)
  | money_Load f => money_Load (fun v => call (f v) k)
  | money_Add d p' => money_Add d (call p' k)
  | bank_Load f => bank_Load (fun v => call (f v) k)
  | bank_Add d p' => bank_Add d (call p' k)
  | fmt_Printf l p' => fmt_Printf l (call p' k)
  | rand_Read n f => rand_Read n (fun b => call (f b) k)
  end.

(** One atomic operation of the code [p] on the shared state [g]: the
    rest of the code and the new state. [None]: the code has returned, or
    it cannot proceed ([Lock] waits while the mutex is held; [Unlock] of a
    mutex that is not held is a fatal error of the Go runtime). *)
Definition step1 {R : Type} (p : Prog R) (g : Globals) : option (Prog R * Globals) :=
  match p with
  | Return _ => None
  | mtx_Lock k => if mtx g then None else Some (k, set_mtx true g)
  | mtx_Unlock k => if mtx g then Some (k, set_mtx false g) else None
  | money_Load k => Some (k (money g), g)
  | money_Add delta k => Some (k, set_money (int64.add (money g) delta) g)
  | bank_Load k => Some (k (bank g), g)
  | bank_Add delta k => Some (k, set_bank (int64.add (bank g) delta) g)
  | fmt_Printf l k => Some (k, set_stdout (stdout g ++ [l]) g)
  | rand_Read len k =>
      let '(b, src) := rand.Read len (entropy g) in
      Some (k b, set_entropy src g)
  end.

(** The code run alone to its end: the value returned and the final
    state, or [None] when it gets stuck on the mutex. *)
Fixpoint run {R : Type} (p : Prog R) (g : Globals) : option (R * Globals) :=
  match p with
  | Return r => Some (r, g)
  | mtx_Lock k => if mtx g then None else run k (set_mtx true g)
  | mtx_Unlock k => if mtx g then run k (set_mtx false g) else None
  | money_Load k => run (k (money g)) g
  | money_Add delta k => run k (set_money (int64.add (money g) delta) g)
  | bank_Load k => run (k (bank g)) g
  | bank_Add delta k => run k (set_bank (int64.add (bank g) delta) g)
  | fmt_Printf l k => run k (set_stdout (stdout g ++ [l]) g)
  | rand_Read len k =>
      let '(b, src) := rand.Read len (entropy g) in
      run (k b) (set_entropy src g)
  end.

(** The state in which [main] starts the server, after
    [money.Add(1000)]. *)
Definition initial (out : list LogLine) (src : rand.Source) : Globals :=
  set_money (int64.add 0 1000) (mkGlobals false 0 0 out src).

Record Request := mkRequest {
  Method : string;
  URL_Path : string;
  Header : http.Header;
  Context : context.Context;
  Body : io.Reader
}.

Definition WithContext (r : Request) (ctx : context.Context) : Request :=
  mkRequest (Method r) (URL_Path r) (Header r) ctx (Body r).

(** An [http.Handler]: [ServeHTTP] works on any response writer and
    returns it as the handler leaves it. *)
Record Handler := HandlerFunc {
  ServeHTTP : forall (W : Type), http.ResponseWriter W ->
              W -> Request -> Prog W
}.

(** ** Request identifiers (the middleware file) *)

Definition RequestIDHeader : string := "X-Request-ID".
Definition RequestIDContextKey : context.Key := context.RequestIDKey "requestID".

Definition generateRequestID {R : Type} (k : string -> Prog R) : Prog R :=
  b <- rand_Read 16 ;;
  match b with
  | None => k "fallback-id"
  | Some b => k (base64.EncodeToString b)
  end.

Definition RequestIDMiddleware (next : Handler) : Handler :=
  HandlerFunc (fun W _ w r =>
    let requestID := http.Get (Header r) RequestIDHeader in
    requestID <- (fun k => if String.eqb requestID "" || String.eqb requestID " "
                           then generateRequestID k
                           else k requestID) ;;
    let ctx := context.WithValue (Context r) RequestIDContextKey
                 (context.AnyString requestID) in
    let r := WithContext r ctx in
    let w := http.PutHeader (http.Set_ (http.Header_ w) RequestIDHeader requestID) w in
    ServeHTTP next W _ w r).

(** [ctx] may be a nil interface value: [None]. *)
Definition GetRequestID (ctx : option context.Context) : string :=
  match ctx with
  | Some ctx =>
      match context.Value ctx RequestIDContextKey with
      | Some (context.AnyString str) => str
      | _ => ""
      end
  | None => ""
  end.

(** ** Logging middleware and its status recorder (main.go) *)

Record responseWriter (W : Type) := mkResponseWriter {
  ResponseWriter : W;
  status : Z
}.
Arguments mkResponseWriter {W} _ _.
Arguments ResponseWriter {W} _.
Arguments status {W} _.

(** [Header] and [Write] are promoted from the embedded writer;
    [WriteHeader] is the method of main.go. *)
#[global] Instance responseWriter_ResponseWriter (W : Type)
  `{http.ResponseWriter W} : http.ResponseWriter (responseWriter W) := {|
  http.Header_ rw := http.Header_ (ResponseWriter rw);
  http.PutHeader h rw :=
    mkResponseWriter (http.PutHeader h (ResponseWriter rw)) (status rw);
  http.Write data rw :=
    mkResponseWriter (http.Write data (ResponseWriter rw)) (status rw);
  http.WriteHeader code rw :=
    mkResponseWriter (http.WriteHeader code (ResponseWriter rw)) code
|}.

Definition LoggingMiddleware (next : Handler) : Handler :=
  HandlerFunc (fun W _ w r =>
    let requestID := GetRequestID (Some (Context r)) in
    fmt_Printf (LogStart requestID (Method r) (URL_Path r)) ;;
    let rw := mkResponseWriter w 200 in
    rw <- call (ServeHTTP next (responseWriter W) _ rw r) ;;
    fmt_Printf (LogEnd requestID (Method r) (URL_Path r) (status rw)) ;;
    Return (ResponseWriter rw)).

(** ** The two transaction handlers (main.go) *)

Definition render (valueMoney valuebank : string) : string :=
  "current balance: " +:+ valueMoney +:+ ", current bank: " +:+ valuebank.

Definition payHandler {W : Type} `{http.ResponseWriter W}
    (w : W) (r : Request) : Prog W :=
  let requestID := GetRequestID (Some (Context r)) in
  match io.ReadAll (Body r) with
  | (_, Some err) =>
      let msg := "error read HTTP body" +:+ err in
      fmt_Printf (LogReadError requestID msg) ;;
      Return (http.Write msg w)
  | (reqBodyString, None) =>
      match strconv.Atoi reqBodyString with
      | None =>
          fmt_Printf (LogParseError requestID) ;;
          Return (http.Write "invalid amount" w)
      | Some reqBodyInt =>
          mtx_Lock ;;
          m <- money_Load ;;
          if m >=? reqBodyInt then
            money_Add (int64.neg reqBodyInt) ;;
            m <- money_Load ;;
            fmt_Printf (LogPayment requestID reqBodyInt m) ;;
            m <- money_Load ;;
            let valueMoney := strconv.Itoa m in
            b <- bank_Load ;;
            let valuebank := strconv.Itoa b in
            let w := http.Write (render valueMoney valuebank) w in
            mtx_Unlock ;;
            Return w
          else
            m <- money_Load ;;
            fmt_Printf (LogLowBalance requestID reqBodyInt m) ;;
            let w := http.Write "low balance" w in
            mtx_Unlock ;;
            Return w
      end
  end.

Definition saveHandler {W : Type} `{http.ResponseWriter W}
    (w : W) (r : Request) : Prog W :=
  let requestID := GetRequestID (Some (Context r)) in
  match io.ReadAll (Body r) with
  | (_, Some err) =>
      let msg := "error read HTTP body" +:+ err in
      fmt_Printf (LogReadError requestID msg) ;;
      Return (http.Write msg w)
  | (reqBodyString, None) =>
      match strconv.Atoi reqBodyString with
      | None =>
          fmt_Printf (LogParseError requestID) ;;
          Return (http.Write "invalid amount" w)
      | Some reqBodyInt =>
          mtx_Lock ;;
          m <- money_Load ;;
          if m >=? reqBodyInt then
            money_Add (int64.neg reqBodyInt) ;;
            bank_Add reqBodyInt ;;
            m <- money_Load ;;
            b <- bank_Load ;;
            fmt_Printf (LogTransfer requestID reqBodyInt m b) ;;
            m <- money_Load ;;
            let valueMoney := strconv.Itoa m in
            b <- bank_Load ;;
            let valuebank := strconv.Itoa b in
            let w := http.Write (render valueMoney valuebank) w in
            mtx_Unlock ;;
            Return w
          else
            m <- money_Load ;;
            fmt_Printf (LogLowTransfer requestID reqBodyInt m) ;;
            let w := http.Write "low balance for bank transfer" w in
            mtx_Unlock ;;
            Return w
      end
  end.

(** The chains registered by [main] for "/pay" and "/save". *)
Definition payHandlerChain : Handler :=
  RequestIDMiddleware (LoggingMiddleware (HandlerFunc (@payHandler))).
Definition saveHandlerChain : Handler :=
  RequestIDMiddleware (LoggingMiddleware (HandlerFunc (@saveHandler))).

(** ** A response sink that records the calls it receives *)

Inductive Call :=
| CallWriteHeader (code : Z)
| CallWrite (data : string).

Record Recorder := mkRecorder {
  rec_header : http.Header;
  rec_calls : list Call
}.

#[global] Instance Recorder_ResponseWriter : http.ResponseWriter Recorder := {|
  http.Header_ w := rec_header w;
  http.PutHeader h w := mkRecorder h (rec_calls w);
  http.Write data w := mkRecorder (rec_header w) (rec_calls w ++ [CallWrite data]);
  http.WriteHeader code w :=
    mkRecorder (rec_header w) (rec_calls w ++ [CallWriteHeader code])
|}.

Definition NewRecorder : Recorder := mkRecorder ∅ [].

(** What a handler does to its response writer: a sequence of calls. *)
Definition play {W : Type} `{http.ResponseWriter W} (calls : list Call) (w : W) : W :=
  fold_left (fun w c =>
    match c with
    | CallWriteHeader code => http.WriteHeader code w
    | CallWrite data => http.Write data w
    end) calls w.

(** The status line net/http sends for a sequence of calls: the code of
    the first [WriteHeader] when it comes before any [Write], and 200
    otherwise (the first [Write] implies [WriteHeader(200)], as does
    returning without any call; later [WriteHeader] calls are ignored). *)
Definition status_sent (calls : list Call) : Z :=
  match calls with
  | CallWriteHeader code :: _ => code
  | _ => 200
  end.

Fixpoint body_sent (calls : list Call) : string :=
  match calls with
  | [] => ""
  | CallWrite data :: rest => data +:+ body_sent rest
  | CallWriteHeader _ :: rest => body_sent rest
  end.

(** The status lines among the calls. *)
Definition status_lines (calls : list Call) : list Z :=
  omap (fun c => match c with CallWriteHeader code => Some code | _ => None end) calls.

(** What a test reads off a handler run on a [Recorder]: the calls
    received by the recorder, and the two counters. *)
Definition observe (o : option (Recorder * Globals)) : option (list Call * Z * Z) :=
  match o with
  | Some (w, g) => Some (rec_calls w, money g, bank g)
  | None => None
  end.

(** A POST request with the given body, as the tests build it. *)
Definition post (path body : string) : Request :=
  mkRequest "POST" path ∅
    (context.WithValue context.Background RequestIDContextKey
       (context.AnyString "test-id"))
    (body, None).

(** [req.Header.Set(key, value)] on a request under construction. *)
Definition with_header (r : Request) (key value : string) : Request :=
  mkRequest (Method r) (URL_Path r) (http.Set_ (Header r) key value)
    (Context r) (Body r).

(** A handler that makes the given calls on its response writer and does
    nothing else. *)
Definition playing (calls : list Call) : Handler :=
  HandlerFunc (fun W _ w _ => Return (play calls w)).

(** The identifier [RequestIDMiddleware] settles on for the header value
    [h], given the outcome [b] of the read of 16 random bytes (made only
    when [h] is "" or " "). *)
Definition resolved_id (h : string) (b : option (list Byte.byte)) : string :=
  if String.eqb h "" || String.eqb h " " then
    match b with
    | None => "fallback-id"
    | Some b => base64.EncodeToString b
    end
  else h.

(** A value made of white space only (space, tab, line feed, vertical
    tab, form feed, carriage return), the empty one included. *)
Definition is_space (c : ascii) : bool :=
  let n := nat_of_ascii c in
  (Nat.eqb n 32 || (Nat.leb 9 n && Nat.leb n 13))%bool.

Fixpoint whitespace_only (s : string) : bool :=
  match s with
  | EmptyString => true
  | String c s' => is_space c && whitespace_only s'
  end.

(** A random source whose every read fails, and one that always yields
    0xff bytes. *)
Definition no_entropy : rand.Source := fun _ => None.
Definition ff_entropy : rand.Source := fun _ => Some (fun _ => Byte.xff).

(** The state the tests start from: balance 1000, bank 0, mutex free. *)
Definition test_state : Globals := initial [] no_entropy.

(** ** Requests served concurrently *)

(** net/http serves every request in a goroutine of its own. A goroutine
    is the code it still has to run, and the Go scheduler lets one of them
    make one atomic operation at a time. [holding] tells whether the
    goroutine is between its [mtx.Lock()] and its [mtx.Unlock()]. *)
Record Thread (W : Type) := mkThread {
  holding : bool;
  code : Prog W
}.
Arguments mkThread {W} _ _.
Arguments holding {W} _.
Arguments code {W} _.

Record System (W : Type) := mkSystem {
  shared : Globals;
  threads : list (Thread W)
}.
Arguments mkSystem {W} _ _.
Arguments shared {W} _.
Arguments threads {W} _.

Definition thread_step {W : Type} (t : Thread W) (g : Globals)
  : option (Thread W * Globals) :=
  match step1 (code t) g with
  | None => None
  | Some (k, g') =>
      let h := match code t with
               | mtx_Lock _ => true
               | mtx_Unlock _ => false
               | _ => holding t
               end in
      Some (mkThread h k, g')
  end.

(** Goroutine [i] makes its next operation; [None] when there is no such
    goroutine, when it has returned, or when it waits for the mutex. *)
Definition schedule1 {W : Type} (i : nat) (s : System W) : option (System W) :=
  match threads s !! i with
  | None => None
  | Some t =>
      match thread_step t (shared s) with
      | None => None
      | Some (t', g') => Some (mkSystem g' (<[i := t']> (threads s)))
      end
  end.

(** An interleaving: the goroutines that move, in order. *)
Fixpoint schedule {W : Type} (sched : list nat) (s : System W) : option (System W) :=
  match sched with
  | [] => Some s
  | i :: sched' =>
      match schedule1 i s with
      | None => None
      | Some s' => schedule sched' s'
      end
  end.


(** A goroutine that has just been handed a request, for either route,
    with or without the middleware chain. *)
Inductive serving {W : Type} `{http.ResponseWriter W} : Thread W -> Prop :=
| serving_pay w r : serving (mkThread false (payHandler w r))
| serving_save w r : serving (mkThread false (saveHandler w r))
| serving_pay_chain w r :
    serving (mkThread false (ServeHTTP payHandlerChain W _ w r))
| serving_save_chain w r :
    serving (mkThread false (ServeHTTP saveHandlerChain W _ w r)).

Definition initial_system {W : Type} `{http.ResponseWriter W} (s : System W) : Prop :=
  mtx (shared s) = false /\ Forall serving (threads s).

(** The locking discipline of a piece of code. [quiet]: it touches
    neither the mutex nor the counters. [locked]: it runs with the mutex
    held, and releases it once, after which it is quiet. [unlocked]: it
    runs with the mutex free, touches the counters only after taking the
    mutex, and then is [locked]. *)
Inductive quiet {R : Type} : Prog R -> Prop :=
| quiet_Return r : quiet (Return r)
| quiet_Printf l k : quiet k -> quiet (fmt_Printf l k)
| quiet_Read n k : (forall b, quiet (k b)) -> quiet (rand_Read n k).

Inductive locked {R : Type} : Prog R -> Prop :=
| locked_Unlock k : quiet k -> locked (mtx_Unlock k)
| locked_money_Load k : (forall v, locked (k v)) -> locked (money_Load k)
| locked_money_Add d k : locked k -> locked (money_Add d k)
| locked_bank_Load k : (forall v, locked (k v)) -> locked (bank_Load k)
| locked_bank_Add d k : locked k -> locked (bank_Add d k)
| locked_Printf l k : locked k -> locked (fmt_Printf l k)
| locked_Read n k : (forall b, locked (k b)) -> locked (rand_Read n k).

Inductive unlocked {R : Type} : Prog R -> Prop :=
| unlocked_Return r : unlocked (Return r)
| unlocked_Lock k : locked k -> unlocked (mtx_Lock k)
| unlocked_Printf l k : unlocked k -> unlocked (fmt_Printf l k)
| unlocked_Read n k : (forall b, unlocked (k b)) -> unlocked (rand_Read n k).

(** The invariant of the interleavings: every goroutine follows the
    discipline of its side of the mutex, the mutex is held whenever a
    goroutine is in its critical section, and at most one is. *)
Definition disciplined {W : Type} (s : System W) : Prop :=
  (forall i t, threads s !! i = Some t ->
     if holding t then locked (code t) /\ mtx (shared s) = true
     else unlocked (code t)) /\
  (forall i j ti tj,
     threads s !! i = Some ti -> threads s !! j = Some tj ->
     holding ti = true -> holding tj = true -> i = j).

(** Two requests in flight, a payment of 150 and a transfer of 200, and
    the state after the first has taken the mutex, made its check and
    debited the balance. *)
Definition two_requests : System Recorder :=
  mkSystem test_state
    [mkThread false (payHandler NewRecorder (post "/pay" "150"));
     mkThread false (saveHandler NewRecorder (post "/save" "200"))].

Definition two_requests_mid : System Recorder :=
  default two_requests (schedule [0; 0; 0]%nat two_requests).

(** Code that never calls [bank.Add]. *)
Inductive bank_free {R : Type} : Prog R -> Prop :=
| bank_free_Return r : bank_free (Return r)
| bank_free_Lock k : bank_free k -> bank_free (mtx_Lock k)
| bank_free_Unlock k : bank_free k -> bank_free (mtx_Unlock k)
| bank_free_money_Load k : (forall v, bank_free (k v)) -> bank_free (money_Load k)
| bank_free_money_Add d k : bank_free k -> bank_free (money_Add d k)
| bank_free_bank_Load k : (forall v, bank_free (k v)) -> bank_free (bank_Load k)
| bank_free_Printf l k : bank_free k -> bank_free (fmt_Printf l k)
| bank_free_Read n k : (forall b, bank_free (k b)) -> bank_free (rand_Read n k).

(** [residual p k]: [k] is what is left of the code [p] after some of its
    operations, whatever the shared state was at each of them (other
    goroutines may have changed it in between). *)
Inductive residual {R : Type} (p : Prog R) : Prog R -> Prop :=
| residual_start : residual p p
| residual_step k g k' g' :
    residual p k -> step1 k g = Some (k', g') -> residual p k'.

(** The outcomes the handlers reject, for a request [r] arriving in
    the state [g]: the body cannot be read, it is not an integer, or the
    balance does not cover the amount. *)
Inductive Rejected (r : Request) (g : Globals) : Prop :=
| RejectedRead data err :
    io.ReadAll (Body r) = (data, Some err) -> Rejected r g
| RejectedParse data :
    io.ReadAll (Body r) = (data, None) -> strconv.Atoi data = None ->
    Rejected r g
| RejectedFunds data a :
    io.ReadAll (Body r) = (data, None) -> strconv.Atoi data = Some a ->
    money g < a -> Rejected r g.

Ltac in_range_closed :=
  unfold int64.in_range, int64.min, int64.max; vm_compute; split; discriminate.

(** Runs the operations at the head of a handler's code. *)
Ltac run_handler :=
  cbn [run step1 mtx money bank stdout entropy
       set_mtx set_money set_bank set_stdout set_entropy].

(** ** Further notions used in the properties *)

(** The identifier printed between brackets at the head of a log line. *)
Definition log_id (l : LogLine) : string :=
  match l with
  | LogStart id _ _ | LogEnd id _ _ _ | LogReadError id _ | LogParseError id
  | LogPayment id _ _ | LogLowBalance id _ _ | LogTransfer id _ _ _
  | LogLowTransfer id _ _ => id
  end.

(** The amount a handler passes to the ledger for the request [r], if
    it gets that far: the body was read and parses. *)
Definition amount_of (r : Request) : option Z :=
  match io.ReadAll (Body r) with
  | (data, None) => strconv.Atoi data
  | (_, Some _) => None
  end.

Definition nonneg_amount (r : Request) : bool :=
  match amount_of r with
  | Some a => 0 <=? a
  | None => true
  end.

(** The characters of the URL-safe alphabet, by their codes: letters,
    digits, '-' and '_'. *)
Definition url_safe (c : ascii) : bool :=
  let n := nat_of_ascii c in
  ((Nat.leb 65 n && Nat.leb n 90) || (Nat.leb 97 n && Nat.leb n 122)
   || (Nat.leb 48 n && Nat.leb n 57) || Nat.eqb n 45 || Nat.eqb n 95)%bool.

(** The two routes registered by [main], and requests served one after
    the other, each on a fresh response. *)
Inductive Route := RoutePay | RouteSave.

Definition route (rt : Route) : Handler :=
  match rt with
  | RoutePay => payHandlerChain
  | RouteSave => saveHandlerChain
  end.

Fixpoint serve_all (reqs : list (Route * Request)) (g : Globals) : option Globals :=
  match reqs with
  | [] => Some g
  | (rt, r) :: rest =>
      match run (ServeHTTP (route rt) Recorder _ NewRecorder r) g with
      | Some (_, g') => serve_all rest g'
      | None => None
      end
  end.

(** Both counters non-negative, their sum at most [B]. *)
Definition ledger_ok (B m b : Z) : Prop := 0 <= m /\ 0 <= b /\ m + b <= B.

(** [cs_safe B p m b]: the code [p], run with the mutex held from the
    counters [m] and [b], keeps [ledger_ok B] after each of its
    operations, up to its [Unlock], after which it is quiet. *)
Inductive cs_safe {R : Type} (B : Z) : Prog R -> Z -> Z -> Prop :=
| cs_Unlock k m b : ledger_ok B m b -> quiet k -> cs_safe B (mtx_Unlock k) m b
| cs_money_Load k m b :
    ledger_ok B m b -> cs_safe B (k m) m b -> cs_safe B (money_Load k) m b
| cs_money_Add d k m b :
    ledger_ok B m b -> cs_safe B k (int64.add m d) b ->
    cs_safe B (money_Add d k) m b
| cs_bank_Load k m b :
    ledger_ok B m b -> cs_safe B (k b) m b -> cs_safe B (bank_Load k) m b
| cs_bank_Add d k m b :
    ledger_ok B m b -> cs_safe B k m (int64.add b d) ->
    cs_safe B (bank_Add d k) m b
| cs_Printf l k m b :
    ledger_ok B m b -> cs_safe B k m b -> cs_safe B (fmt_Printf l k) m b
| cs_Read n k m b :
    ledger_ok B m b -> (forall x, cs_safe B (k x) m b) ->
    cs_safe B (rand_Read n k) m b.

(** [out_safe B p]: the code [p], run with the mutex free, touches the
    counters only after taking the mutex, and is then [cs_safe] from any
    counters that are [ledger_ok]. *)
Inductive out_safe {R : Type} (B : Z) : Prog R -> Prop :=
| out_Return r : out_safe B (Return r)
| out_Lock k :
    (forall m b, ledger_ok B m b -> cs_safe B k m b) -> out_safe B (mtx_Lock k)
| out_Printf l k : out_safe B k -> out_safe B (fmt_Printf l k)
| out_Read n k : (forall x, out_safe B (k x)) -> out_safe B (rand_Read n k).

(** A goroutine that has just been handed a request whose amount, if
    any, is not negative. *)
Inductive serving_nonneg {W : Type} `{http.ResponseWriter W} : Thread W -> Prop :=
| serving_nonneg_pay w r :
    nonneg_amount r = true -> serving_nonneg (mkThread false (payHandler w r))
| serving_nonneg_save w r :
    nonneg_amount r = true -> serving_nonneg (mkThread false (saveHandler w r))
| serving_nonneg_pay_chain w r :
    nonneg_amount r = true ->
    serving_nonneg (mkThread false (ServeHTTP payHandlerChain W _ w r))
| serving_nonneg_save_chain w r :
    nonneg_amount r = true ->
    serving_nonneg (mkThread false (ServeHTTP saveHandlerChain W _ w r)).

(** The goroutine has returned: its request is answered. *)
Definition returned {W : Type} (t : Thread W) : bool :=
  match code t with
  | Return _ => true
  | _ => false
  end.

(** The mutex is held by a goroutine of the system whenever it is
    held. *)
Definition holder_exists {W : Type} (s : System W) : Prop :=
  mtx (shared s) = true ->
  exists i t, threads s !! i = Some t /\ holding t = true.

(** The counters are [ledger_ok], and every goroutine keeps them so:
    the one in its critical section from the counters as they are, the
    others from whatever they find when they take the mutex. *)
Definition safe_system {W : Type} (B : Z) (s : System W) : Prop :=
  ledger_ok B (money (shared s)) (bank (shared s)) /\
  (forall i t, threads s !! i = Some t ->
     if holding t then cs_safe B (code t) (money (shared s)) (bank (shared s))
     else out_safe B (code t)).

(** A goroutine serving a request of the pay route. *)
Inductive serving_pay_only {W : Type} `{http.ResponseWriter W} : Thread W -> Prop :=
| serving_pay_only_bare w r : serving_pay_only (mkThread false (payHandler w r))
| serving_pay_only_chain w r :
    serving_pay_only (mkThread false (ServeHTTP payHandlerChain W _ w r)).

(** ** Outcomes of a request *)

(** The four ways a handler ends. [outcome r g] is the one the request
    [r] meets in the state [g]: the body cannot be read; it is not an
    integer; the balance covers the amount; it does not. *)
Inductive Outcome := Success | InsufficientFunds | InvalidAmount | ReadFailure.

Definition outcome (r : Request) (g : Globals) : Outcome :=
  match io.ReadAll (Body r) with
  | (_, Some _) => ReadFailure
  | (data, None) =>
      match strconv.Atoi data with
      | None => InvalidAmount
      | Some a => if money g >=? a then Success else InsufficientFunds
      end
  end.

(** [has_prefix p s]: the text [s] starts with [p]. *)
Fixpoint has_prefix (p s : string) : bool :=
  match p, s with
  | EmptyString, _ => true
  | String a p', String b s' => Ascii.eqb a b && has_prefix p' s'
  | String _ _, EmptyString => false
  end.

(** What a client reads off the text of a response body. *)
Definition outcome_of_body (body : string) : option Outcome :=
  if has_prefix "current balance: " body then Some Success
  else if String.eqb body "low balance"
          || String.eqb body "low balance for bank transfer"
  then Some InsufficientFunds
  else if String.eqb body "invalid amount" then Some InvalidAmount
  else if has_prefix "error read HTTP body" body then Some ReadFailure
  else None.

(** [answers low r g g' body]: the body written and the counters left
    in [g'] are those of the outcome the request [r] meets in [g], [low]
    being the handler's message for insufficient funds. *)
Definition answers (low : string) (r : Request) (g g' : Globals) (body : string)
  : Prop :=
  match outcome r g with
  | Success =>
      (exists a, amount_of r = Some a /\ a <= money g
                 /\ money g' = int64.add (money g) (int64.neg a))
      /\ body = render (strconv.Itoa (money g')) (strconv.Itoa (bank g'))
  | InsufficientFunds =>
      (exists a, amount_of r = Some a /\ money g < a)
      /\ body = low /\ money g' = money g /\ bank g' = bank g
  | InvalidAmount =>
      body = "invalid amount" /\ money g' = money g /\ bank g' = bank g
  | ReadFailure =>
      (exists data err, io.ReadAll (Body r) = (data, Some err)
                        /\ body = "error read HTTP body" +:+ err)
      /\ money g' = money g /\ bank g' = bank g
  end.

(** ** Critical sections as units *)

(** The two counters a run ends on. *)
Definition ledger_of {R : Type} (o : option (R * Globals)) : option (Z * Z) :=
  match o with
  | Some (_, g) => Some (money g, bank g)
  | None => None
  end.




(** The goroutine at index [i], for states written out in full. *)
Definition thread_at (s : System Recorder) (i : nat) : Thread Recorder :=
  default (mkThread false (Return NewRecorder)) (threads s !! i).

(** A payment of 150 and, through the chain, a transfer of 200. The
    transfer has generated its identifier ([in_flight]); the payment takes
    the mutex ([in_flight_locked]); it makes its check and its debit while
    the transfer logs its "Start" line ([in_flight_mid]). *)
Definition in_flight_start : System Recorder :=
  mkSystem test_state
    [mkThread false (payHandler NewRecorder (post "/pay" "150"));
     mkThread false
       (ServeHTTP saveHandlerChain Recorder _ NewRecorder (post "/save" "200"))].

Definition in_flight : System Recorder :=
  default in_flight_start (schedule [1]%nat in_flight_start).

Definition in_flight_locked : System Recorder :=
  default in_flight_start (schedule1 0%nat in_flight).

Definition in_flight_mid : System Recorder :=
  default in_flight_start (schedule [0; 1; 0]%nat in_flight_locked).

(** * Properties *)

(** ** Library models on the values of the tests *)

Example Atoi_150 : strconv.Atoi "150" = Some 150. Proof. reflexivity. Qed.
Example Atoi_neg : strconv.Atoi "-100" = Some (-100). Proof. reflexivity. Qed.
Example Atoi_plus : strconv.Atoi "+7" = Some 7. Proof. reflexivity. Qed.
Example Atoi_bad : strconv.Atoi "not-a-number" = None. Proof. reflexivity. Qed.
Example Atoi_empty : strconv.Atoi "" = None. Proof. reflexivity. Qed.
Example Atoi_sign : strconv.Atoi "-" = None. Proof. reflexivity. Qed.
Example Atoi_max : strconv.Atoi "9223372036854775807" = Some int64.max.
Proof. reflexivity. Qed.
Example Atoi_over : strconv.Atoi "9223372036854775808" = None.
Proof. reflexivity. Qed.
Example Atoi_min : strconv.Atoi "-9223372036854775808" = Some int64.min.
Proof. reflexivity. Qed.
Example Itoa_850 : strconv.Itoa 850 = "850". Proof. reflexivity. Qed.
Example Itoa_0 : strconv.Itoa 0 = "0". Proof. reflexivity. Qed.
Example Itoa_neg : strconv.Itoa (-12) = "-12". Proof. reflexivity. Qed.
Example EncodeToString_ex :
  base64.EncodeToString [Byte.x00; Byte.xff; Byte.x10; Byte.x41] = "AP8QQQ".
Proof. reflexivity. Qed.

(** ** 64-bit arithmetic *)

Lemma wrap_in_range z : int64.in_range z -> int64.wrap z = z.
Proof.
  unfold int64.in_range, int64.min, int64.max, int64.wrap. intros Hz.
  rewrite Z.mod_small by lia. lia.
Qed.

Lemma wrap_range z : int64.in_range (int64.wrap z).
Proof.
  unfold int64.in_range, int64.min, int64.max, int64.wrap.
  pose proof (Z.mod_pos_bound (z + 2 ^ 63) (2 ^ 64) ltac:(lia)). lia.
Qed.

(** A debit of a non-negative amount that the balance covers does not
    wrap. *)
Lemma debit_exact m a :
  int64.in_range m -> 0 <= a <= m -> int64.add m (int64.neg a) = m - a.
Proof.
  intros Hm Ha. unfold int64.add, int64.neg.
  rewrite (wrap_in_range (- a)).
  - rewrite wrap_in_range; [lia |].
    unfold int64.in_range, int64.min, int64.max in *. lia.
  - unfold int64.in_range, int64.min, int64.max in *. lia.
Qed.

Lemma credit_exact b a :
  int64.in_range (b + a) -> int64.add b a = b + a.
Proof. intros H. unfold int64.add. now apply wrap_in_range. Qed.

(** ** The handlers run alone *)

Section Sequential.

Context {W : Type} `{RW : http.ResponseWriter W}.

Lemma payHandler_read_error w r g data err :
  io.ReadAll (Body r) = (data, Some err) ->
  run (payHandler w r) g =
    Some (http.Write ("error read HTTP body" +:+ err) w,
          set_stdout (stdout g ++ [LogReadError (GetRequestID (Some (Context r)))
                                     ("error read HTTP body" +:+ err)]) g).
Proof. intros Hb. unfold payHandler. rewrite Hb. reflexivity. Qed.

Lemma payHandler_parse_error w r g data :
  io.ReadAll (Body r) = (data, None) -> strconv.Atoi data = None ->
  run (payHandler w r) g =
    Some (http.Write "invalid amount" w,
          set_stdout (stdout g ++ [LogParseError (GetRequestID (Some (Context r)))]) g).
Proof. intros Hb Ha. unfold payHandler. rewrite Hb, Ha. reflexivity. Qed.

Lemma payHandler_success w r g data a :
  mtx g = false ->
  io.ReadAll (Body r) = (data, None) -> strconv.Atoi data = Some a ->
  a <= money g ->
  let m := int64.add (money g) (int64.neg a) in
  run (payHandler w r) g =
    Some (http.Write (render (strconv.Itoa m) (strconv.Itoa (bank g))) w,
          mkGlobals false m (bank g)
            (stdout g ++ [LogPayment (GetRequestID (Some (Context r))) a m])
            (entropy g)).
Proof.
  intros Hm Hb Ha Hle. unfold payHandler. rewrite Hb, Ha. run_handler.
  rewrite Hm. run_handler.
  destruct (Z.geb_spec (money g) a) as [_ | Hlt]; [| lia].
  run_handler. reflexivity.
Qed.

Lemma payHandler_low w r g data a :
  mtx g = false ->
  io.ReadAll (Body r) = (data, None) -> strconv.Atoi data = Some a ->
  money g < a ->
  run (payHandler w r) g =
    Some (http.Write "low balance" w,
          mkGlobals false (money g) (bank g)
            (stdout g ++ [LogLowBalance (GetRequestID (Some (Context r))) a (money g)])
            (entropy g)).
Proof.
  intros Hm Hb Ha Hlt. unfold payHandler. rewrite Hb, Ha. run_handler.
  rewrite Hm. run_handler.
  destruct (Z.geb_spec (money g) a) as [Hge | _]; [lia |].
  run_handler. reflexivity.
Qed.

Lemma saveHandler_read_error w r g data err :
  io.ReadAll (Body r) = (data, Some err) ->
  run (saveHandler w r) g =
    Some (http.Write ("error read HTTP body" +:+ err) w,
          set_stdout (stdout g ++ [LogReadError (GetRequestID (Some (Context r)))
                                     ("error read HTTP body" +:+ err)]) g).
Proof. intros Hb. unfold saveHandler. rewrite Hb. reflexivity. Qed.

Lemma saveHandler_parse_error w r g data :
  io.ReadAll (Body r) = (data, None) -> strconv.Atoi data = None ->
  run (saveHandler w r) g =
    Some (http.Write "invalid amount" w,
          set_stdout (stdout g ++ [LogParseError (GetRequestID (Some (Context r)))]) g).
Proof. intros Hb Ha. unfold saveHandler. rewrite Hb, Ha. reflexivity. Qed.

Lemma saveHandler_success w r g data a :
  mtx g = false ->
  io.ReadAll (Body r) = (data, None) -> strconv.Atoi data = Some a ->
  a <= money g ->
  let m := int64.add (money g) (int64.neg a) in
  let b := int64.add (bank g) a in
  run (saveHandler w r) g =
    Some (http.Write (render (strconv.Itoa m) (strconv.Itoa b)) w,
          mkGlobals false m b
            (stdout g ++ [LogTransfer (GetRequestID (Some (Context r))) a m b])
            (entropy g)).
Proof.
  intros Hm Hb Ha Hle. unfold saveHandler. rewrite Hb, Ha. run_handler.
  rewrite Hm. run_handler.
  destruct (Z.geb_spec (money g) a) as [_ | Hlt]; [| lia].
  run_handler. reflexivity.
Qed.

Lemma saveHandler_low w r g data a :
  mtx g = false ->
  io.ReadAll (Body r) = (data, None) -> strconv.Atoi data = Some a ->
  money g < a ->
  run (saveHandler w r) g =
    Some (http.Write "low balance for bank transfer" w,
          mkGlobals false (money g) (bank g)
            (stdout g ++ [LogLowTransfer (GetRequestID (Some (Context r))) a (money g)])
            (entropy g)).
Proof.
  intros Hm Hb Ha Hlt. unfold saveHandler. rewrite Hb, Ha. run_handler.
  rewrite Hm. run_handler.
  destruct (Z.geb_spec (money g) a) as [Hge | _]; [lia |].
  run_handler. reflexivity.
Qed.

(** C1 (as amended): for a body that parses as a non-negative amount,
    the debit succeeds exactly when the balance covers the amount. On
    success the balance decreases by exactly the amount, the bank counter
    is unchanged and the body written is "current balance: X, current
    bank: Y" for the new state; otherwise both counters are unchanged and
    the body written is "low balance". *)
Theorem payHandler_debit w r g data a :
  mtx g = false -> int64.in_range (money g) ->
  io.ReadAll (Body r) = (data, None) -> strconv.Atoi data = Some a ->
  0 <= a ->
  (a <= money g ->
   exists g', run (payHandler w r) g =
                Some (http.Write (render (strconv.Itoa (money g'))
                                         (strconv.Itoa (bank g'))) w, g')
              /\ money g' = money g - a /\ bank g' = bank g) /\
  (money g < a ->
   exists g', run (payHandler w r) g = Some (http.Write "low balance" w, g')
              /\ money g' = money g /\ bank g' = bank g).
Proof.
  intros Hm Hr Hb Ha H0. split; intros Hcmp.
  - rewrite (payHandler_success w r g data a) by assumption.
    eexists (mkGlobals _ _ _ _ _). split; [reflexivity |].
    cbn [money bank]. split; [apply debit_exact; [assumption | lia] | reflexivity].
  - eexists. split; [apply (payHandler_low w r g data a); assumption |].
    split; reflexivity.
Qed.

(** C2 (as amended): for a body that parses as a non-negative amount
    [a], a transfer that succeeds from a state in which [bank + a] fits in
    64 bits leaves [balance_before = balance_after + a] and
    [bank_after = bank_before + a], and writes the body rendering that
    pair; when the balance does not cover the amount both counters are
    unchanged and the body written is "low balance for bank transfer". *)
Theorem saveHandler_transfer w r g data a :
  mtx g = false -> int64.in_range (money g) -> int64.in_range (bank g) ->
  io.ReadAll (Body r) = (data, None) -> strconv.Atoi data = Some a ->
  0 <= a ->
  (a <= money g -> bank g + a <= int64.max ->
   exists g', run (saveHandler w r) g =
                Some (http.Write (render (strconv.Itoa (money g'))
                                         (strconv.Itoa (bank g'))) w, g')
              /\ money g = money g' + a /\ bank g' = bank g + a) /\
  (money g < a ->
   exists g', run (saveHandler w r) g =
                Some (http.Write "low balance for bank transfer" w, g')
              /\ money g' = money g /\ bank g' = bank g).
Proof.
  intros Hm Hr Hbk Hb Ha H0. split.
  - intros Hle Hfit.
    rewrite (saveHandler_success w r g data a) by assumption.
    eexists (mkGlobals _ _ _ _ _). split; [reflexivity |].
    cbn [money bank]. split.
    + rewrite debit_exact; [lia | assumption | lia].
    + apply credit_exact. unfold int64.in_range in *. lia.
  - intros Hlt.
    eexists. split; [apply (saveHandler_low w r g data a); assumption |].
    split; reflexivity.
Qed.

(** C5: a request that is rejected (the body cannot be read, it does not
    parse, or the balance does not cover the amount) is answered, by the
    pay handler and by the save handler, with both counters exactly as
    they were. *)
Theorem rejected_unchanged w r g :
  mtx g = false -> Rejected r g ->
  (exists w' g', run (payHandler w r) g = Some (w', g')
                 /\ money g' = money g /\ bank g' = bank g) /\
  (exists w' g', run (saveHandler w r) g = Some (w', g')
                 /\ money g' = money g /\ bank g' = bank g).
Proof.
  intros Hm [data err Hb | data Hb Ha | data a Hb Ha Hlt].
  - split; do 2 eexists.
    + split; [apply (payHandler_read_error w r g data err Hb) |]. split; reflexivity.
    + split; [apply (saveHandler_read_error w r g data err Hb) |]. split; reflexivity.
  - split; do 2 eexists.
    + split; [apply (payHandler_parse_error w r g data Hb Ha) |]. split; reflexivity.
    + split; [apply (saveHandler_parse_error w r g data Hb Ha) |]. split; reflexivity.
  - split; do 2 eexists.
    + split; [apply (payHandler_low w r g data a Hm Hb Ha Hlt) |]. split; reflexivity.
    + split; [apply (saveHandler_low w r g data a Hm Hb Ha Hlt) |]. split; reflexivity.
Qed.

(** With amounts that are not negative, the two counters stay
    non-negative, the balance never grows and a transfer keeps the sum of
    the two. *)
Lemma nonnegative_amounts_preserve w r g :
  mtx g = false -> 0 <= money g -> 0 <= bank g ->
  money g + bank g <= int64.max ->
  (forall a, strconv.Atoi (fst (io.ReadAll (Body r))) = Some a -> 0 <= a) ->
  (exists w' g', run (payHandler w r) g = Some (w', g')
                 /\ 0 <= money g' <= money g /\ bank g' = bank g) /\
  (exists w' g', run (saveHandler w r) g = Some (w', g')
                 /\ 0 <= money g' <= money g /\ bank g <= bank g'
                 /\ money g' + bank g' = money g + bank g).
Proof.
  intros Hm Hmoney Hbank Hsum Hpos.
  assert (Hr : int64.in_range (money g)).
  { unfold int64.in_range, int64.min, int64.max in *. lia. }
  destruct (io.ReadAll (Body r)) as [data [err |]] eqn:Hb; cbn [fst] in Hpos.
  - rewrite (payHandler_read_error w r g data err Hb),
      (saveHandler_read_error w r g data err Hb).
    split; do 2 eexists; (split; [reflexivity |]); cbn [money bank set_stdout]; lia.
  - destruct (strconv.Atoi data) as [a |] eqn:Ha.
    + specialize (Hpos a eq_refl).
      destruct (Z_le_gt_dec a (money g)) as [Hle | Hgt].
      * rewrite (payHandler_success w r g data a),
          (saveHandler_success w r g data a) by assumption.
        cbn zeta.
        split; do 2 eexists; (split; [reflexivity |]); cbn [money bank];
          rewrite debit_exact by (assumption || lia);
          rewrite ?credit_exact
            by (unfold int64.in_range, int64.min, int64.max in *; lia); lia.
      * rewrite (payHandler_low w r g data a),
          (saveHandler_low w r g data a) by (assumption || lia).
        split; do 2 eexists; (split; [reflexivity |]); cbn [money bank]; lia.
    + rewrite (payHandler_parse_error w r g data Hb Ha),
        (saveHandler_parse_error w r g data Hb Ha).
      split; do 2 eexists; (split; [reflexivity |]); cbn [money bank set_stdout]; lia.
Qed.

(** Whatever the request, each handler makes exactly one call on its
    response writer, a [Write], and leaves the mutex free. *)
Lemma payHandler_writes_once w r g :
  mtx g = false ->
  exists body g', run (payHandler w r) g = Some (http.Write body w, g')
                  /\ mtx g' = false /\ bank g' = bank g.
Proof.
  intros Hm. destruct (io.ReadAll (Body r)) as [data [err |]] eqn:Hb.
  - do 2 eexists. split; [apply (payHandler_read_error w r g data err Hb) |].
    split; [exact Hm | reflexivity].
  - destruct (strconv.Atoi data) as [a |] eqn:Ha.
    + destruct (Z_le_gt_dec a (money g)) as [Hle | Hgt].
      * do 2 eexists. split; [apply (payHandler_success w r g data a); assumption |].
        split; reflexivity.
      * do 2 eexists. split; [apply (payHandler_low w r g data a); (assumption || lia) |].
        split; reflexivity.
    + do 2 eexists. split; [apply (payHandler_parse_error w r g data Hb Ha) |].
      split; [exact Hm | reflexivity].
Qed.

Lemma saveHandler_writes_once w r g :
  mtx g = false ->
  exists body g', run (saveHandler w r) g = Some (http.Write body w, g')
                  /\ mtx g' = false.
Proof.
  intros Hm. destruct (io.ReadAll (Body r)) as [data [err |]] eqn:Hb.
  - do 2 eexists. split; [apply (saveHandler_read_error w r g data err Hb) |].
    exact Hm.
  - destruct (strconv.Atoi data) as [a |] eqn:Ha.
    + destruct (Z_le_gt_dec a (money g)) as [Hle | Hgt].
      * do 2 eexists. split; [apply (saveHandler_success w r g data a); assumption |].
        reflexivity.
      * do 2 eexists. split; [apply (saveHandler_low w r g data a); (assumption || lia) |].
        reflexivity.
    + do 2 eexists. split; [apply (saveHandler_parse_error w r g data Hb Ha) |].
      exact Hm.
Qed.

End Sequential.

(** *** Instances on the values of the tests *)

Lemma payHandler_debit_witness :
  (150 <= money test_state ->
   exists g', run (payHandler NewRecorder (post "/pay" "150")) test_state =
                Some (http.Write (render (strconv.Itoa (money g'))
                                         (strconv.Itoa (bank g'))) NewRecorder, g')
              /\ money g' = money test_state - 150 /\ bank g' = bank test_state) /\
  (money test_state < 150 ->
   exists g', run (payHandler NewRecorder (post "/pay" "150")) test_state =
                Some (http.Write "low balance" NewRecorder, g')
              /\ money g' = money test_state /\ bank g' = bank test_state).
Proof.
  apply (payHandler_debit NewRecorder (post "/pay" "150") test_state "150" 150).
  - reflexivity.
  - in_range_closed.
  - reflexivity.
  - reflexivity.
  - lia.
Defined.

(** The scenarios of the test file for the pay handler. *)
Example pay_150 :
  observe (run (payHandler NewRecorder (post "/pay" "150")) test_state)
  = Some ([CallWrite "current balance: 850, current bank: 0"], 850, 0).
Proof. vm_compute. reflexivity. Qed.

Example pay_1500 :
  observe (run (payHandler NewRecorder (post "/pay" "1500")) test_state)
  = Some ([CallWrite "low balance"], 1000, 0).
Proof. vm_compute. reflexivity. Qed.

Example pay_not_a_number :
  observe (run (payHandler NewRecorder (post "/pay" "not-a-number")) test_state)
  = Some ([CallWrite "invalid amount"], 1000, 0).
Proof. vm_compute. reflexivity. Qed.

Example pay_empty :
  observe (run (payHandler NewRecorder (post "/pay" "")) test_state)
  = Some ([CallWrite "invalid amount"], 1000, 0).
Proof. vm_compute. reflexivity. Qed.

Example pay_zero :
  observe (run (payHandler NewRecorder (post "/pay" "0")) test_state)
  = Some ([CallWrite "current balance: 1000, current bank: 0"], 1000, 0).
Proof. vm_compute. reflexivity. Qed.

Example pay_very_large :
  observe (run (payHandler NewRecorder (post "/pay" "999999999999999999")) test_state)
  = Some ([CallWrite "low balance"], 1000, 0).
Proof. vm_compute. reflexivity. Qed.

Example save_200 :
  observe (run (saveHandler NewRecorder (post "/save" "200")) test_state)
  = Some ([CallWrite "current balance: 800, current bank: 200"], 800, 200).
Proof. vm_compute. reflexivity. Qed.

Example save_1500 :
  observe (run (saveHandler NewRecorder (post "/save" "1500")) test_state)
  = Some ([CallWrite "low balance for bank transfer"], 1000, 0).
Proof. vm_compute. reflexivity. Qed.

(** C1 as stated fails: the body "-9223372036854775807" parses, the
    balance 1000 covers it, the debit succeeds, and the balance written
    back is not [1000 - amount]: the sum does not fit in 64 bits. *)
Lemma payHandler_debit_wraps :
  strconv.Atoi "-9223372036854775807" = Some (-9223372036854775807) /\
  observe (run (payHandler NewRecorder (post "/pay" "-9223372036854775807"))
             test_state)
  = Some ([CallWrite "current balance: -9223372036854774809, current bank: 0"],
          -9223372036854774809, 0) /\
  -9223372036854774809 <> money test_state - (-9223372036854775807).
Proof.
  split; [reflexivity |]. split; [vm_compute; reflexivity |].
  vm_compute. discriminate.
Qed.

Lemma saveHandler_transfer_witness :
  (200 <= money test_state -> bank test_state + 200 <= int64.max ->
   exists g', run (saveHandler NewRecorder (post "/save" "200")) test_state =
                Some (http.Write (render (strconv.Itoa (money g'))
                                         (strconv.Itoa (bank g'))) NewRecorder, g')
              /\ money test_state = money g' + 200
              /\ bank g' = bank test_state + 200) /\
  (money test_state < 200 ->
   exists g', run (saveHandler NewRecorder (post "/save" "200")) test_state =
                Some (http.Write "low balance for bank transfer" NewRecorder, g')
              /\ money g' = money test_state /\ bank g' = bank test_state).
Proof.
  apply (saveHandler_transfer NewRecorder (post "/save" "200") test_state "200" 200).
  - reflexivity.
  - in_range_closed.
  - in_range_closed.
  - reflexivity.
  - reflexivity.
  - lia.
Defined.

(** C2 as stated fails in two ways. A negative amount whose debit wraps:
    the transfer of "-9223372036854775807" from balance 1000 succeeds and
    [balance_before = balance_after + a] does not hold. And a credit that
    wraps: with balance 1 and bank 2^63-1 the transfer of "1" succeeds and
    [bank_after = bank_before + 1] does not hold. *)
Lemma saveHandler_transfer_wraps :
  (observe (run (saveHandler NewRecorder (post "/save" "-9223372036854775807"))
              test_state)
   = Some ([CallWrite
              "current balance: -9223372036854774809, current bank: -9223372036854775807"],
           -9223372036854774809, -9223372036854775807) /\
   money test_state <> -9223372036854774809 + (-9223372036854775807)) /\
  (observe (run (saveHandler NewRecorder (post "/save" "1"))
              (mkGlobals false 1 int64.max [] no_entropy))
   = Some ([CallWrite "current balance: 0, current bank: -9223372036854775808"],
           0, -9223372036854775808) /\
   -9223372036854775808 <> int64.max + 1).
Proof.
  split; (split; [vm_compute; reflexivity | vm_compute; discriminate]).
Qed.

(** C3: the code at the input of the test "Negative Amount" (and at the
    same body sent to the save handler). The body "-100" parses, the
    ledger operation runs, the balance grows to 1100 and the answer is
    the success message, not "invalid amount". *)
Theorem negative_amount_accepted :
  strconv.Atoi "-100" = Some (-100) /\
  observe (run (payHandler NewRecorder (post "/pay" "-100")) test_state)
  = Some ([CallWrite "current balance: 1100, current bank: 0"], 1100, 0) /\
  observe (run (saveHandler NewRecorder (post "/save" "-100")) test_state)
  = Some ([CallWrite "current balance: 1100, current bank: -100"], 1100, -100).
Proof. repeat split; vm_compute; reflexivity. Qed.

(** C4: the code on a state with both counters non-negative. The save
    handler given "-100" leaves the bank counter at -100, and the pay
    handler given "-9223372036854775807" leaves the balance negative. *)
Theorem nonnegative_not_preserved :
  0 <= money test_state /\ 0 <= bank test_state /\
  (exists w' g', run (saveHandler NewRecorder (post "/save" "-100")) test_state
                 = Some (w', g') /\ bank g' = -100 /\ bank g' < 0) /\
  (exists w' g', run (payHandler NewRecorder (post "/pay" "-9223372036854775807"))
                   test_state
                 = Some (w', g') /\ money g' < 0).
Proof.
  split; [vm_compute; discriminate |]. split; [vm_compute; discriminate |].
  split.
  - do 2 eexists. split; [reflexivity |]. split; [reflexivity | reflexivity].
  - do 2 eexists. split; [reflexivity |]. reflexivity.
Qed.

Lemma rejected_unchanged_witness :
  (exists w' g', run (payHandler NewRecorder (post "/pay" "1500")) test_state
                 = Some (w', g')
                 /\ money g' = money test_state /\ bank g' = bank test_state) /\
  (exists w' g', run (saveHandler NewRecorder (post "/pay" "1500")) test_state
                 = Some (w', g')
                 /\ money g' = money test_state /\ bank g' = bank test_state).
Proof.
  apply (rejected_unchanged NewRecorder (post "/pay" "1500") test_state).
  - reflexivity.
  - apply (RejectedFunds _ _ "1500" 1500); [reflexivity | reflexivity |].
    vm_compute. reflexivity.
Defined.

(** ** The middleware chain *)

Lemma run_call {A R : Type} (p : Prog A) (k : A -> Prog R) g :
  run (call p k) g =
    match run p g with
    | Some (a, g') => run (k a) g'
    | None => None
    end.
Proof.
  revert g. induction p as [a | p IH | p IH | f IH | d p IH | f IH | d p IH
                            | l p IH | n f IH]; intros g; cbn [call run]; auto.
  - destruct (mtx g); auto.
  - destruct (mtx g); auto.
  - destruct (rand.Read n (entropy g)) as [b src]. auto.
Qed.


Section Chain.

Context {W : Type} `{RW : http.ResponseWriter W}.

Lemma run_LoggingMiddleware next (w : W) r g :
  let requestID := GetRequestID (Some (Context r)) in
  run (ServeHTTP (LoggingMiddleware next) W _ w r) g =
    match run (ServeHTTP next (responseWriter W) _ (mkResponseWriter w 200) r)
            (set_stdout (stdout g ++ [LogStart requestID (Method r) (URL_Path r)]) g)
    with
    | Some (rw, g') =>
        Some (ResponseWriter rw,
              set_stdout (stdout g' ++
                          [LogEnd requestID (Method r) (URL_Path r) (status rw)]) g')
    | None => None
    end.
Proof.
  cbn [ServeHTTP LoggingMiddleware run]. rewrite run_call.
  destruct (run _ _) as [[rw g'] |]; reflexivity.
Qed.

(** What [RequestIDMiddleware] hands to the next handler: the identifier
    is bound in the request context and set in the response header. *)
Lemma run_RequestIDMiddleware next (w : W) r g :
  let h := http.Get (Header r) RequestIDHeader in
  let generate := String.eqb h "" || String.eqb h " " in
  let id := resolved_id h (fst (rand.Read 16 (entropy g))) in
  run (ServeHTTP (RequestIDMiddleware next) W _ w r) g =
    run (ServeHTTP next W _
           (http.PutHeader (http.Set_ (http.Header_ w) RequestIDHeader id) w)
           (WithContext r (context.WithValue (Context r) RequestIDContextKey
                             (context.AnyString id))))
        (if generate then set_entropy (snd (rand.Read 16 (entropy g))) g else g).
Proof.
  cbn zeta. unfold resolved_id.
  cbn [ServeHTTP RequestIDMiddleware].
  destruct (String.eqb _ "" || String.eqb _ " ") eqn:Hgen.
  - unfold generateRequestID. cbn [run].
    destruct (rand.Read 16 (entropy g)) as [[b |] src]; reflexivity.
  - reflexivity.
Qed.

Lemma GetRequestID_bound ctx id :
  GetRequestID (Some (context.WithValue ctx RequestIDContextKey (context.AnyString id)))
  = id.
Proof. reflexivity. Qed.

End Chain.

(** The identifier is never empty: a header value that is reused is
    neither "" nor " ", the fallback is "fallback-id" and 16 bytes encode
    to 22 characters. *)
Lemma EncodeToString_16 (f : nat -> Byte.byte) :
  String.length (base64.EncodeToString (map f (seq 0 16))) = 22%nat.
Proof. reflexivity. Qed.

Lemma resolved_id_nonempty h src :
  resolved_id h (fst (rand.Read 16 src)) <> "".
Proof.
  unfold resolved_id. destruct (String.eqb_spec h "") as [-> | Hne]; cbn [orb].
  - unfold rand.Read. cbn [fst]. destruct (src O) as [f |]; [| discriminate].
    intros Heq. pose proof (EncodeToString_16 f) as Hlen.
    rewrite Heq in Hlen. discriminate.
  - destruct (String.eqb h " "); [| assumption].
    unfold rand.Read. cbn [fst]. destruct (src O) as [f |]; [| discriminate].
    intros Heq. pose proof (EncodeToString_16 f) as Hlen.
    rewrite Heq in Hlen. discriminate.
Qed.

Lemma resolved_id_reuse h b :
  h <> "" -> h <> " " -> resolved_id h b = h.
Proof.
  intros H1 H2. unfold resolved_id.
  destruct (String.eqb_spec h ""); [contradiction |].
  destruct (String.eqb_spec h " "); [contradiction |]. reflexivity.
Qed.

(** Through the chain registered by [main], a handler that makes one
    [Write] and frees the mutex answers with that one [Write], after the
    identifier has been set in the response header; the "End" line logs
    the status 200. *)
Lemma chain_writes_once {W : Type} `{RW : http.ResponseWriter W}
    (next : Handler) (P : Globals -> Globals -> Prop) :
  (forall g, P g g) ->
  (forall g l, P (set_stdout l g) g) ->
  (forall g e, P (set_entropy e g) g) ->
  (forall g1 g2 g3, P g1 g2 -> P g2 g3 -> P g1 g3) ->
  (forall (w : responseWriter W) r g, mtx g = false ->
     exists body g', run (ServeHTTP next _ _ w r) g = Some (http.Write body w, g')
                     /\ mtx g' = false /\ P g' g) ->
  forall (w : W) r g, mtx g = false ->
  exists id body g',
    run (ServeHTTP (RequestIDMiddleware (LoggingMiddleware next)) W _ w r) g
    = Some (http.Write body
              (http.PutHeader (http.Set_ (http.Header_ w) RequestIDHeader id) w), g')
    /\ id = resolved_id (http.Get (Header r) RequestIDHeader)
              (fst (rand.Read 16 (entropy g)))
    /\ last (stdout g') = Some (LogEnd id (Method r) (URL_Path r) 200)
    /\ mtx g' = false /\ P g' g.
Proof.
  intros Hrefl Hout Hent Htrans Hnext w r g Hm.
  rewrite run_RequestIDMiddleware, run_LoggingMiddleware. cbn zeta.
  set (id := resolved_id _ _).
  match goal with
  | |- context [set_stdout _ (if ?c then ?a else ?b)] =>
      set (g1 := if c then a else b)
  end.
  assert (Hm1 : mtx g1 = false).
  { subst g1. destruct (_ || _); assumption. }
  assert (HP1 : P g1 g).
  { subst g1. destruct (_ || _); [apply Hent | apply Hrefl]. }
  set (g2 := set_stdout _ g1).
  set (rw := mkResponseWriter _ 200).
  set (r1 := WithContext r _).
  destruct (Hnext rw r1 g2 Hm1) as (body & g3 & Hrun & Hm3 & HP3).
  rewrite Hrun. exists id, body. eexists. split; [reflexivity |].
  split; [reflexivity |]. split; [| split].
  - cbn [stdout set_stdout]. rewrite last_snoc. subst r1.
    cbn [Context WithContext Method URL_Path].
    rewrite GetRequestID_bound. reflexivity.
  - exact Hm3.
  - apply (Htrans _ g3); [apply Hout |].
    apply (Htrans _ g2); [exact HP3 |].
    apply (Htrans _ g1); [apply Hout | exact HP1].
Qed.

(** The body each handler writes, outcome by outcome, and what the text
    of that body tells. *)
Lemma payHandler_answers {W : Type} `{RW : http.ResponseWriter W} (w : W) r g :
  mtx g = false ->
  exists body g',
    run (payHandler w r) g = Some (http.Write body w, g')
    /\ answers "low balance" r g g' body
    /\ outcome_of_body body = Some (outcome r g).
Proof.
  intros Hm. unfold answers, outcome, amount_of.
  destruct (io.ReadAll (Body r)) as [data [err |]] eqn:Hb.
  - rewrite (payHandler_read_error w r g data err Hb).
    do 2 eexists. split; [reflexivity |]. split; [| reflexivity].
    split; [eauto | split; reflexivity].
  - destruct (strconv.Atoi data) as [a |] eqn:Ha.
    + destruct (Z.geb_spec (money g) a) as [Hge | Hlt].
      * rewrite (payHandler_success w r g data a) by (assumption || lia).
        cbn zeta. eexists _, (mkGlobals _ _ _ _ _).
        split; [reflexivity |]. split; [| reflexivity].
        cbn [money bank]. split; [| reflexivity].
        exists a. repeat split; (reflexivity || lia).
      * rewrite (payHandler_low w r g data a) by assumption.
        do 2 eexists. split; [reflexivity |]. split; [| reflexivity].
        split; [eauto |]. repeat split.
    + rewrite (payHandler_parse_error w r g data Hb Ha).
      do 2 eexists. split; [reflexivity |]. split; [| reflexivity].
      repeat split.
Qed.

Lemma saveHandler_answers {W : Type} `{RW : http.ResponseWriter W} (w : W) r g :
  mtx g = false ->
  exists body g',
    run (saveHandler w r) g = Some (http.Write body w, g')
    /\ answers "low balance for bank transfer" r g g' body
    /\ outcome_of_body body = Some (outcome r g).
Proof.
  intros Hm. unfold answers, outcome, amount_of.
  destruct (io.ReadAll (Body r)) as [data [err |]] eqn:Hb.
  - rewrite (saveHandler_read_error w r g data err Hb).
    do 2 eexists. split; [reflexivity |]. split; [| reflexivity].
    split; [eauto | split; reflexivity].
  - destruct (strconv.Atoi data) as [a |] eqn:Ha.
    + destruct (Z.geb_spec (money g) a) as [Hge | Hlt].
      * rewrite (saveHandler_success w r g data a) by (assumption || lia).
        cbn zeta. eexists _, (mkGlobals _ _ _ _ _).
        split; [reflexivity |]. split; [| reflexivity].
        cbn [money bank]. split; [| reflexivity].
        exists a. repeat split; (reflexivity || lia).
      * rewrite (saveHandler_low w r g data a) by assumption.
        do 2 eexists. split; [reflexivity |]. split; [| reflexivity].
        split; [eauto |]. repeat split.
    + rewrite (saveHandler_parse_error w r g data Hb Ha).
      do 2 eexists. split; [reflexivity |]. split; [| reflexivity].
      repeat split.
Qed.

(** [answers] looks at the body of the request and at the counters
    only. *)
Lemma answers_transfer low r1 r g2 g g3 g' body :
  Body r1 = Body r -> money g2 = money g -> bank g2 = bank g ->
  money g' = money g3 -> bank g' = bank g3 ->
  answers low r1 g2 g3 body -> answers low r g g' body.
Proof.
  unfold answers, outcome, amount_of.
  intros Hbody Hmoney Hbank Hmoney' Hbank' Hans.
  rewrite Hbody, Hmoney, ?Hbank in Hans. rewrite Hmoney', Hbank'. exact Hans.
Qed.

(** C9: whatever the request and its outcome (success, insufficient
    funds, invalid amount, body that cannot be read), the pay handler and
    the save handler, called directly or through the middleware chain,
    make a single call on a fresh response, a [Write] and never a
    [WriteHeader]: the status sent is 200 (and the "End" line logs 200).
    The body written is the text of the outcome: the rendering of the new
    counters on success, the handler's "low balance" message with the
    counters unchanged, "invalid amount" with the counters unchanged, or
    the read error with the counters unchanged. The four texts tell the
    outcomes apart: what a client reads off the body is the outcome. *)
Theorem handlers_answer_200 (w : Recorder) (r : Request) (g : Globals) :
  mtx g = false -> rec_calls w = [] ->
  (exists body w' g',
     run (payHandler w r) g = Some (w', g')
     /\ rec_calls w' = [CallWrite body] /\ status_sent (rec_calls w') = 200
     /\ answers "low balance" r g g' body
     /\ outcome_of_body body = Some (outcome r g)) /\
  (exists body w' g',
     run (saveHandler w r) g = Some (w', g')
     /\ rec_calls w' = [CallWrite body] /\ status_sent (rec_calls w') = 200
     /\ answers "low balance for bank transfer" r g g' body
     /\ outcome_of_body body = Some (outcome r g)) /\
  (exists id body w' g',
     run (ServeHTTP payHandlerChain Recorder _ w r) g = Some (w', g')
     /\ rec_calls w' = [CallWrite body] /\ status_sent (rec_calls w') = 200
     /\ last (stdout g') = Some (LogEnd id (Method r) (URL_Path r) 200)
     /\ answers "low balance" r g g' body
     /\ outcome_of_body body = Some (outcome r g)) /\
  (exists id body w' g',
     run (ServeHTTP saveHandlerChain Recorder _ w r) g = Some (w', g')
     /\ rec_calls w' = [CallWrite body] /\ status_sent (rec_calls w') = 200
     /\ last (stdout g') = Some (LogEnd id (Method r) (URL_Path r) 200)
     /\ answers "low balance for bank transfer" r g g' body
     /\ outcome_of_body body = Some (outcome r g)).
Proof.
  intros Hm Hw. split; [| split; [| split]].
  - destruct (payHandler_answers w r g Hm) as (body & g' & Hrun & Hans & Hcls).
    exists body. do 2 eexists. split; [exact Hrun |].
    cbn [http.Write Recorder_ResponseWriter rec_calls]. rewrite Hw. auto.
  - destruct (saveHandler_answers w r g Hm) as (body & g' & Hrun & Hans & Hcls).
    exists body. do 2 eexists. split; [exact Hrun |].
    cbn [http.Write Recorder_ResponseWriter rec_calls]. rewrite Hw. auto.
  - unfold payHandlerChain.
    rewrite run_RequestIDMiddleware, run_LoggingMiddleware. cbn zeta.
    match goal with
    | |- context [set_stdout ?l (if ?c then ?a else ?b)] =>
        set (g2 := set_stdout l (if c then a else b));
        assert (Hg2 : mtx g2 = false /\ money g2 = money g /\ bank g2 = bank g)
          by (subst g2; destruct c; auto)
    end.
    destruct Hg2 as (Hm2 & Hmoney2 & Hbank2). cbn [ServeHTTP].
    match goal with
    | |- context [run (payHandler ?rw ?r1) g2] =>
        destruct (payHandler_answers rw r1 g2 Hm2)
          as (body & g3 & Hrun & Hans & Hcls)
    end.
    rewrite Hrun. eexists _, body. do 2 eexists. split; [reflexivity |].
    cbn [http.Write http.PutHeader responseWriter_ResponseWriter
         Recorder_ResponseWriter rec_calls ResponseWriter status stdout set_stdout].
    rewrite Hw, last_snoc. split; [reflexivity |]. split; [reflexivity |].
    split; [cbn [Context WithContext Method URL_Path];
            rewrite GetRequestID_bound; reflexivity |].
    split.
    + eapply answers_transfer; [| | | | | exact Hans];
        (reflexivity || assumption).
    + rewrite Hcls. unfold outcome. cbn [Body WithContext]. rewrite Hmoney2.
      reflexivity.
  - unfold saveHandlerChain.
    rewrite run_RequestIDMiddleware, run_LoggingMiddleware. cbn zeta.
    match goal with
    | |- context [set_stdout ?l (if ?c then ?a else ?b)] =>
        set (g2 := set_stdout l (if c then a else b));
        assert (Hg2 : mtx g2 = false /\ money g2 = money g /\ bank g2 = bank g)
          by (subst g2; destruct c; auto)
    end.
    destruct Hg2 as (Hm2 & Hmoney2 & Hbank2). cbn [ServeHTTP].
    match goal with
    | |- context [run (saveHandler ?rw ?r1) g2] =>
        destruct (saveHandler_answers rw r1 g2 Hm2)
          as (body & g3 & Hrun & Hans & Hcls)
    end.
    rewrite Hrun. eexists _, body. do 2 eexists. split; [reflexivity |].
    cbn [http.Write http.PutHeader responseWriter_ResponseWriter
         Recorder_ResponseWriter rec_calls ResponseWriter status stdout set_stdout].
    rewrite Hw, last_snoc. split; [reflexivity |]. split; [reflexivity |].
    split; [cbn [Context WithContext Method URL_Path];
            rewrite GetRequestID_bound; reflexivity |].
    split.
    + eapply answers_transfer; [| | | | | exact Hans];
        (reflexivity || assumption).
    + rewrite Hcls. unfold outcome. cbn [Body WithContext]. rewrite Hmoney2.
      reflexivity.
Qed.

Lemma handlers_answer_200_witness :
  (exists body w' g',
     run (payHandler NewRecorder (post "/pay" "1500")) test_state = Some (w', g')
     /\ rec_calls w' = [CallWrite body] /\ status_sent (rec_calls w') = 200
     /\ answers "low balance" (post "/pay" "1500") test_state g' body
     /\ outcome_of_body body = Some (outcome (post "/pay" "1500") test_state)) /\
  (exists body w' g',
     run (saveHandler NewRecorder (post "/pay" "1500")) test_state = Some (w', g')
     /\ rec_calls w' = [CallWrite body] /\ status_sent (rec_calls w') = 200
     /\ answers "low balance for bank transfer" (post "/pay" "1500") test_state
          g' body
     /\ outcome_of_body body = Some (outcome (post "/pay" "1500") test_state)) /\
  (exists id body w' g',
     run (ServeHTTP payHandlerChain Recorder _ NewRecorder (post "/pay" "1500"))
         test_state = Some (w', g')
     /\ rec_calls w' = [CallWrite body] /\ status_sent (rec_calls w') = 200
     /\ last (stdout g')
        = Some (LogEnd id (Method (post "/pay" "1500"))
                  (URL_Path (post "/pay" "1500")) 200)
     /\ answers "low balance" (post "/pay" "1500") test_state g' body
     /\ outcome_of_body body = Some (outcome (post "/pay" "1500") test_state)) /\
  (exists id body w' g',
     run (ServeHTTP saveHandlerChain Recorder _ NewRecorder (post "/pay" "1500"))
         test_state = Some (w', g')
     /\ rec_calls w' = [CallWrite body] /\ status_sent (rec_calls w') = 200
     /\ last (stdout g')
        = Some (LogEnd id (Method (post "/pay" "1500"))
                  (URL_Path (post "/pay" "1500")) 200)
     /\ answers "low balance for bank transfer" (post "/pay" "1500") test_state
          g' body
     /\ outcome_of_body body = Some (outcome (post "/pay" "1500") test_state)).
Proof.
  apply (handlers_answer_200 NewRecorder (post "/pay" "1500") test_state);
    reflexivity.
Defined.

(** The four outcomes on the rows of the tests, and what their bodies
    tell. *)
Example outcomes_of_the_tests :
  outcome (post "/pay" "150") test_state = Success /\
  outcome (post "/pay" "1500") test_state = InsufficientFunds /\
  outcome (post "/pay" "not-a-number") test_state = InvalidAmount /\
  outcome (mkRequest "POST" "/pay" ∅ context.Background ("15", Some "unexpected EOF"))
    test_state = ReadFailure /\
  outcome_of_body "current balance: 850, current bank: 0" = Some Success /\
  outcome_of_body "low balance" = Some InsufficientFunds /\
  outcome_of_body "low balance for bank transfer" = Some InsufficientFunds /\
  outcome_of_body "invalid amount" = Some InvalidAmount /\
  outcome_of_body "error read HTTP bodyunexpected EOF" = Some ReadFailure /\
  outcome_of_body "" = None.
Proof. repeat split. Qed.

Lemma bank_free_call {A R : Type} (p : Prog A) (k : A -> Prog R) :
  bank_free p -> (forall a, bank_free (k a)) -> bank_free (call p k).
Proof. intros Hp Hk. induction Hp; cbn [call]; auto; constructor; auto. Qed.

Lemma bank_free_step {R : Type} (p k : Prog R) g g' :
  bank_free p -> step1 p g = Some (k, g') -> bank g' = bank g /\ bank_free k.
Proof.
  intros Hp Hs. destruct Hp; cbn [step1] in Hs; try discriminate;
    try (injection Hs as <- <-; auto).
  - destruct (mtx g); [discriminate |]. injection Hs as <- <-. auto.
  - destruct (mtx g); [| discriminate]. injection Hs as <- <-. auto.
Qed.

Lemma bank_free_residual {R : Type} (p k : Prog R) :
  bank_free p -> residual p k -> bank_free k.
Proof.
  intros Hp Hres. induction Hres as [| k g k' g' _ IH Hs]; [exact Hp |].
  eapply bank_free_step; eassumption.
Qed.

Lemma payHandler_bank_free {W : Type} `{RW : http.ResponseWriter W} (w : W) r :
  bank_free (payHandler w r).
Proof.
  unfold payHandler. destruct (io.ReadAll (Body r)) as [data [err |]].
  - repeat constructor.
  - destruct (strconv.Atoi data) as [a |]; [| repeat constructor].
    apply bank_free_Lock, bank_free_money_Load. intros m.
    destruct (m >=? a); repeat (constructor; intros).
Qed.

Lemma payHandlerChain_bank_free {W : Type} `{RW : http.ResponseWriter W} (w : W) r :
  bank_free (ServeHTTP payHandlerChain W _ w r).
Proof.
  assert (Hlog : forall w r,
             bank_free (ServeHTTP (LoggingMiddleware (HandlerFunc (@payHandler)))
                          W _ w r)).
  { intros w1 r1. cbn [ServeHTTP LoggingMiddleware].
    apply bank_free_Printf, bank_free_call; [apply payHandler_bank_free |].
    intros rw. repeat constructor. }
  unfold payHandlerChain. cbn [ServeHTTP RequestIDMiddleware].
  destruct (String.eqb _ "" || String.eqb _ " ").
  - unfold generateRequestID. apply bank_free_Read. intros [b |]; apply Hlog.
  - apply Hlog.
Qed.

(** C10: whatever the request, the pay handler returns with the bank
    counter exactly as it found it, called directly or through the
    middleware chain; and none of its operations, at any point of its
    execution and in any state of the shared variables, changes the bank
    counter (the only [bank.Add] of the program is in the save
    handler). *)
Theorem payHandler_bank_unchanged {W : Type} `{RW : http.ResponseWriter W}
    (w : W) (r : Request) (g : Globals) :
  mtx g = false ->
  (exists w' g', run (payHandler w r) g = Some (w', g') /\ bank g' = bank g) /\
  (exists w' g', run (ServeHTTP payHandlerChain W _ w r) g = Some (w', g')
                 /\ bank g' = bank g) /\
  (forall k g1 k' g1',
     residual (payHandler w r) k \/ residual (ServeHTTP payHandlerChain W _ w r) k ->
     step1 k g1 = Some (k', g1') -> bank g1' = bank g1).
Proof.
  intros Hm. split; [| split].
  - destruct (payHandler_writes_once w r g Hm) as (body & g' & Hrun & _ & Hbank).
    eauto.
  - destruct (chain_writes_once (HandlerFunc (@payHandler))
                (fun g' g => bank g' = bank g))
      with (w := w) (r := r) (g := g)
      as (id & body & g' & Hrun & _ & _ & _ & Hbank); auto.
    + intros; congruence.
    + intros rw r1 g1 Hm1.
      destruct (payHandler_writes_once rw r1 g1 Hm1) as (body & g' & Hrun & Hm' & Hb).
      exists body, g'. auto.
    + eauto.
  - intros k g1 k' g1' Hres Hs.
    assert (Hk : bank_free k).
    { destruct Hres as [Hres | Hres];
        (eapply bank_free_residual; [| exact Hres]);
        [apply payHandler_bank_free | apply payHandlerChain_bank_free]. }
    eapply bank_free_step; eassumption.
Qed.

Lemma payHandler_bank_unchanged_witness :
  (exists w' g', run (payHandler NewRecorder (post "/pay" "-100")) test_state
                 = Some (w', g') /\ bank g' = bank test_state) /\
  (exists w' g', run (ServeHTTP payHandlerChain Recorder _ NewRecorder
                        (post "/pay" "-100")) test_state = Some (w', g')
                 /\ bank g' = bank test_state) /\
  (forall k g1 k' g1',
     residual (payHandler NewRecorder (post "/pay" "-100")) k \/
     residual (ServeHTTP payHandlerChain Recorder _ NewRecorder
                 (post "/pay" "-100")) k ->
     step1 k g1 = Some (k', g1') -> bank g1' = bank g1).
Proof.
  apply (payHandler_bank_unchanged NewRecorder (post "/pay" "-100") test_state).
  reflexivity.
Defined.

(** ** Request identifiers *)

(** The middleware on the three rows of its test: no header, the header
    " ", and a header that is reused. *)
Example request_id_absent :
  option_map (fun '(w, g) => (http.Get (rec_header w) RequestIDHeader, stdout g))
    (run (ServeHTTP payHandlerChain Recorder _ NewRecorder (post "/pay" "150"))
       (initial [] ff_entropy))
  = Some ("_____________________w",
          [LogStart "_____________________w" "POST" "/pay";
           LogPayment "_____________________w" 150 850;
           LogEnd "_____________________w" "POST" "/pay" 200]).
Proof. vm_compute. reflexivity. Qed.

Example request_id_one_space :
  option_map (fun '(w, g) => http.Get (rec_header w) RequestIDHeader)
    (run (ServeHTTP payHandlerChain Recorder _ NewRecorder
            (with_header (post "/pay" "150") RequestIDHeader " "))
       (initial [] ff_entropy))
  = Some "_____________________w".
Proof. vm_compute. reflexivity. Qed.

Example request_id_reused :
  option_map (fun '(w, g) => http.Get (rec_header w) RequestIDHeader)
    (run (ServeHTTP payHandlerChain Recorder _ NewRecorder
            (with_header (post "/pay" "150") RequestIDHeader "test-request-123"))
       (initial [] ff_entropy))
  = Some "test-request-123".
Proof. vm_compute. reflexivity. Qed.

(** C7: the code on a header made of two spaces, whatever the random
    source. The value is white space only, yet no identifier is
    generated: the two spaces are bound in the context (the log lines carry
    them), echoed in the response header, and the random source is not
    read. *)
Theorem whitespace_header_reused (src : rand.Source) :
  whitespace_only "  " = true /\
  exists w' g',
    run (ServeHTTP payHandlerChain Recorder _ NewRecorder
           (with_header (post "/pay" "150") RequestIDHeader "  "))
        (initial [] src) = Some (w', g')
    /\ http.Get (rec_header w') RequestIDHeader = "  "
    /\ stdout g' = [LogStart "  " "POST" "/pay"; LogPayment "  " 150 850;
                    LogEnd "  " "POST" "/pay" 200]
    /\ entropy g' = src.
Proof.
  split; [reflexivity |]. do 2 eexists. split; [vm_compute; reflexivity |].
  split; [vm_compute; reflexivity |]. split; reflexivity.
Qed.

(** ** The status recorder *)

Lemma play_app {W : Type} `{RW : http.ResponseWriter W} (c1 c2 : list Call) (w : W) :
  play (c1 ++ c2) w = play c2 (play c1 w).
Proof. unfold play. apply fold_left_app. Qed.

Lemma status_lines_app (c1 c2 : list Call) :
  status_lines (c1 ++ c2) = (status_lines c1 ++ status_lines c2)%list.
Proof. unfold status_lines. apply omap_app. Qed.

(** The recorder passes every call on, and its [status] field holds the
    code of the last [WriteHeader] call, if any. *)
Lemma play_responseWriter {W : Type} `{RW : http.ResponseWriter W}
    (calls : list Call) (w : W) (st : Z) :
  play calls (mkResponseWriter w st)
  = mkResponseWriter (play calls w) (default st (last (status_lines calls))).
Proof.
  revert w st. induction calls as [| c calls IH] using rev_ind; intros w st.
  - reflexivity.
  - rewrite !play_app, IH, status_lines_app.
    destruct c as [code | data]; simpl.
    + rewrite last_snoc. reflexivity.
    + rewrite app_nil_r. reflexivity.
Qed.

Lemma play_Recorder (calls : list Call) (w : Recorder) :
  play calls w = mkRecorder (rec_header w) (rec_calls w ++ calls).
Proof.
  revert w. induction calls as [| c calls IH]; intros w.
  - rewrite app_nil_r. destruct w; reflexivity.
  - change (play (c :: calls) w) with (play calls (play [c] w)).
    rewrite IH. destruct c; cbn; rewrite <- app_assoc; reflexivity.
Qed.

(** C8 (as amended): under [LoggingMiddleware], whose recorder starts at
    200, a handler that makes the calls [calls] on its writer leaves the
    recorder with the code of its last [WriteHeader] call, and with 200
    when it makes none; that is the status of the "End" line. Every call
    reaches the underlying sink, in order: the sink receives one status
    line per [WriteHeader] call of the handler, with the same code. *)
Theorem responseWriter_records (calls : list Call) (w : Recorder) (r : Request)
    (g : Globals) :
  play calls (mkResponseWriter w 200)
  = mkResponseWriter (play calls w) (default 200 (last (status_lines calls)))
  /\ (status_lines calls = [] -> default 200 (last (status_lines calls)) = 200)
  /\ rec_calls (play calls w) = (rec_calls w ++ calls)%list
  /\ status_lines (rec_calls (play calls w))
     = (status_lines (rec_calls w) ++ status_lines calls)%list
  /\ run (ServeHTTP (LoggingMiddleware (playing calls)) Recorder _ w r) g
     = Some (play calls w,
             set_stdout
               (stdout g ++
                [LogStart (GetRequestID (Some (Context r))) (Method r) (URL_Path r);
                 LogEnd (GetRequestID (Some (Context r))) (Method r) (URL_Path r)
                   (default 200 (last (status_lines calls)))]) g).
Proof.
  split; [apply play_responseWriter |].
  split; [intros ->; reflexivity |].
  split; [rewrite play_Recorder; reflexivity |].
  split; [rewrite play_Recorder; apply status_lines_app |].
  rewrite run_LoggingMiddleware. cbn zeta.
  cbn [ServeHTTP playing run]. rewrite play_responseWriter.
  cbn [ResponseWriter status set_stdout stdout mtx money bank entropy].
  rewrite <- app_assoc. reflexivity.
Qed.

Lemma responseWriter_records_witness :
  default 200 (last (status_lines [CallWrite "test body"])) = 200.
Proof.
  apply (responseWriter_records [CallWrite "test body"] NewRecorder
           (post "/test" "") test_state).
  reflexivity.
Defined.

(** The rows of the test of the recorder. *)
Example recorder_rows :
  status (play [CallWriteHeader 404] (mkResponseWriter NewRecorder 200)) = 404 /\
  status (play [CallWrite "test body"] (mkResponseWriter NewRecorder 200)) = 200 /\
  status (play [CallWriteHeader 500; CallWrite "error"]
            (mkResponseWriter NewRecorder 200)) = 500.
Proof. repeat split. Qed.

(** C8 as stated fails for a handler that records a status twice, or
    after it has written to the body. With [WriteHeader(404)] then
    [WriteHeader(500)] the sink receives two status lines in one response
    (and the recorder holds 500, while 404 is what is sent). With a [Write]
    followed by [WriteHeader(500)] no status was set before the body was
    written, yet the recorder ends on 500 (and 200 is what is sent). *)
Lemma responseWriter_not_once :
  (status_lines (rec_calls (ResponseWriter
     (play [CallWriteHeader 404; CallWriteHeader 500]
        (mkResponseWriter NewRecorder 200)))) = [404; 500]
   /\ status (play [CallWriteHeader 404; CallWriteHeader 500]
                (mkResponseWriter NewRecorder 200)) = 500
   /\ status_sent (rec_calls (ResponseWriter
        (play [CallWriteHeader 404; CallWriteHeader 500]
           (mkResponseWriter NewRecorder 200)))) = 404) /\
  (status (play [CallWrite "x"; CallWriteHeader 500]
             (mkResponseWriter NewRecorder 200)) = 500
   /\ status_sent (rec_calls (ResponseWriter
        (play [CallWrite "x"; CallWriteHeader 500]
           (mkResponseWriter NewRecorder 200)))) = 200).
Proof. repeat split. Qed.

(** ** Requests served concurrently *)

Section Concurrent.

Context {W : Type} `{RW : http.ResponseWriter W}.

Lemma quiet_unlocked {R : Type} (p : Prog R) : quiet p -> unlocked p.
Proof. induction 1; constructor; auto. Qed.

Lemma quiet_call {A R : Type} (p : Prog A) (k : A -> Prog R) :
  quiet p -> (forall a, quiet (k a)) -> quiet (call p k).
Proof. intros Hp Hk. induction Hp; cbn [call]; auto; constructor; auto. Qed.

Lemma locked_call {A R : Type} (p : Prog A) (k : A -> Prog R) :
  locked p -> (forall a, quiet (k a)) -> locked (call p k).
Proof.
  intros Hp Hk. induction Hp; cbn [call]; constructor; auto using quiet_call.
Qed.

Lemma unlocked_call {A R : Type} (p : Prog A) (k : A -> Prog R) :
  unlocked p -> (forall a, quiet (k a)) -> unlocked (call p k).
Proof.
  intros Hp Hk. induction Hp; cbn [call];
    auto using quiet_unlocked; constructor; auto using locked_call.
Qed.

Lemma payHandler_unlocked (w : W) r : unlocked (payHandler w r).
Proof.
  unfold payHandler. destruct (io.ReadAll (Body r)) as [data [err |]].
  - repeat constructor.
  - destruct (strconv.Atoi data) as [a |]; [| repeat constructor].
    apply unlocked_Lock, locked_money_Load. intros m.
    destruct (m >=? a); repeat (constructor; intros).
Qed.

Lemma saveHandler_unlocked (w : W) r : unlocked (saveHandler w r).
Proof.
  unfold saveHandler. destruct (io.ReadAll (Body r)) as [data [err |]].
  - repeat constructor.
  - destruct (strconv.Atoi data) as [a |]; [| repeat constructor].
    apply unlocked_Lock, locked_money_Load. intros m.
    destruct (m >=? a); repeat (constructor; intros).
Qed.

End Concurrent.

Lemma chain_unlocked (next : Handler) :
  (forall W RW w r, unlocked (ServeHTTP next W RW w r)) ->
  forall W RW w r,
    unlocked (ServeHTTP (RequestIDMiddleware (LoggingMiddleware next)) W RW w r).
Proof.
  intros Hnext W RW w r.
  assert (Hlog : forall w r, unlocked (ServeHTTP (LoggingMiddleware next) W RW w r)).
  { intros w1 r1. cbn [ServeHTTP LoggingMiddleware].
    apply unlocked_Printf, unlocked_call; [apply Hnext |].
    intros rw. repeat constructor. }
  cbn [ServeHTTP RequestIDMiddleware].
  destruct (String.eqb _ "" || String.eqb _ " ").
  - unfold generateRequestID. apply unlocked_Read. intros [b |]; apply Hlog.
  - apply Hlog.
Qed.

Section Interleavings.

Context {W : Type} `{RW : http.ResponseWriter W}.

Lemma serving_unlocked (t : Thread W) :
  serving t -> holding t = false /\ unlocked (code t).
Proof.
  intros [w r | w r | w r | w r]; (split; [reflexivity |]); cbn [code].
  - apply payHandler_unlocked.
  - apply saveHandler_unlocked.
  - apply (chain_unlocked (HandlerFunc (@payHandler))).
    intros; apply payHandler_unlocked.
  - apply (chain_unlocked (HandlerFunc (@saveHandler))).
    intros; apply saveHandler_unlocked.
Qed.

(** One operation of a goroutine that holds the mutex. *)
Lemma locked_step (t t' : Thread W) g g' :
  locked (code t) -> thread_step t g = Some (t', g') ->
  (holding t' = false /\ quiet (code t') /\ mtx g' = false) \/
  (holding t' = holding t /\ locked (code t') /\ mtx g' = mtx g).
Proof.
  unfold thread_step. destruct t as [h p]; cbn [code holding].
  intros Hl Hs. destruct Hl; cbn [step1] in Hs.
  - destruct (mtx g); [| discriminate]. injection Hs as <- <-. left. auto.
  - injection Hs as <- <-. right. cbn. auto.
  - injection Hs as <- <-. right. cbn. auto.
  - injection Hs as <- <-. right. cbn. auto.
  - injection Hs as <- <-. right. cbn. auto.
  - injection Hs as <- <-. right. cbn. auto.
  - destruct (rand.Read n (entropy g)) as [b src].
    injection Hs as <- <-. right. cbn. auto.
Qed.

(** One operation of a goroutine that does not hold it: it takes the
    mutex, which was free, or it leaves the mutex and the counters
    alone. *)
Lemma unlocked_step (t t' : Thread W) g g' :
  unlocked (code t) -> thread_step t g = Some (t', g') ->
  (holding t' = true /\ locked (code t') /\ mtx g = false /\ mtx g' = true) \/
  (holding t' = holding t /\ unlocked (code t') /\ mtx g' = mtx g
   /\ money g' = money g /\ bank g' = bank g).
Proof.
  unfold thread_step. destruct t as [h p]; cbn [code holding].
  intros Hu Hs. destruct Hu; cbn [step1] in Hs.
  - discriminate.
  - destruct (mtx g) eqn:Hm; [discriminate |]. injection Hs as <- <-.
    left. cbn. auto.
  - injection Hs as <- <-. right. cbn. auto 6.
  - destruct (rand.Read n (entropy g)) as [b src].
    injection Hs as <- <-. right. cbn. auto 6.
Qed.


Lemma initial_disciplined (s : System W) : initial_system s -> disciplined s.
Proof.
  intros [Hm Hall]. split.
  - intros i t Hi.
    destruct (serving_unlocked t) as [Hh Hu].
    { eapply Forall_lookup_1; eassumption. }
    rewrite Hh. exact Hu.
  - intros i j ti tj Hi Hj Hhi _.
    destruct (serving_unlocked ti) as [Hh _].
    { eapply Forall_lookup_1; eassumption. }
    congruence.
Qed.

Lemma schedule1_disciplined (j : nat) (s s' : System W) :
  disciplined s -> schedule1 j s = Some s' -> disciplined s'.
Proof.
  intros [Hdisc Hexcl] Hstep. unfold schedule1 in Hstep.
  destruct (threads s !! j) as [t |] eqn:Hj; [| discriminate].
  destruct (thread_step t (shared s)) as [[t' g'] |] eqn:Hts; [| discriminate].
  injection Hstep as <-. unfold disciplined. cbn [threads shared].
  pose proof (Hdisc j t Hj) as Ht.
  destruct (holding t) eqn:Hh.
  - (* the goroutine in its critical section moves *)
    destruct Ht as [Hl Hm].
    assert (Hothers : forall i ti, i <> j -> threads s !! i = Some ti ->
                                   holding ti = false).
    { intros i ti Hne Hi. destruct (holding ti) eqn:Hhi; [| reflexivity].
      exfalso. apply Hne. eapply Hexcl; eassumption. }
    destruct (locked_step t t' _ _ Hl Hts)
      as [(Hh' & Hq & Hm') | (Hh' & Hl' & Hm')].
    + split.
      * intros i ti Hi. apply list_lookup_insert_Some in Hi
          as [(<- & <- & _) | (Hne & Hi)].
        -- rewrite Hh'. apply quiet_unlocked, Hq.
        -- pose proof (Hdisc i ti Hi) as Hti.
           rewrite (Hothers i ti) in * by auto. exact Hti.
      * intros i i' ti ti' Hi Hi' Hhi Hhi'.
        apply list_lookup_insert_Some in Hi as [(<- & <- & _) | (Hne & Hi)];
          [congruence |].
        rewrite (Hothers i ti) in Hhi by auto. discriminate.
    + split.
      * intros i ti Hi. apply list_lookup_insert_Some in Hi
          as [(<- & <- & _) | (Hne & Hi)].
        -- rewrite Hh', Hh. split; [exact Hl' | congruence].
        -- pose proof (Hdisc i ti Hi) as Hti.
           rewrite (Hothers i ti) in * by auto. exact Hti.
      * intros i i' ti ti' Hi Hi' Hhi Hhi'.
        apply list_lookup_insert_Some in Hi as [(<- & <- & _) | (Hne & Hi)];
          apply list_lookup_insert_Some in Hi' as [(<- & <- & _) | (Hne' & Hi')];
          try reflexivity.
        -- rewrite (Hothers i' ti') in Hhi' by auto. discriminate.
        -- rewrite (Hothers i ti) in Hhi by auto. discriminate.
        -- rewrite (Hothers i ti) in Hhi by auto. discriminate.
  - (* a goroutine outside its critical section moves *)
    destruct (unlocked_step t t' _ _ Ht Hts)
      as [(Hh' & Hl' & Hm & Hm') | (Hh' & Hu' & Hm' & _)].
    + assert (Hnone : forall i ti, threads s !! i = Some ti -> holding ti = false).
      { intros i ti Hi. pose proof (Hdisc i ti Hi) as Hti.
        destruct (holding ti); [| reflexivity].
        destruct Hti as [_ Hti]. congruence. }
      split.
      * intros i ti Hi. apply list_lookup_insert_Some in Hi
          as [(<- & <- & _) | (Hne & Hi)].
        -- rewrite Hh'. auto.
        -- pose proof (Hdisc i ti Hi) as Hti.
           rewrite (Hnone i ti) in * by auto. exact Hti.
      * intros i i' ti ti' Hi Hi' Hhi Hhi'.
        apply list_lookup_insert_Some in Hi as [(<- & <- & _) | (Hne & Hi)];
          apply list_lookup_insert_Some in Hi' as [(<- & <- & _) | (Hne' & Hi')];
          try reflexivity.
        -- rewrite (Hnone i' ti') in Hhi' by auto. discriminate.
        -- rewrite (Hnone i ti) in Hhi by auto. discriminate.
        -- rewrite (Hnone i ti) in Hhi by auto. discriminate.
    + split.
      * intros i ti Hi. apply list_lookup_insert_Some in Hi
          as [(<- & <- & _) | (Hne & Hi)].
        -- rewrite Hh', Hh. exact Hu'.
        -- pose proof (Hdisc i ti Hi) as Hti.
           destruct (holding ti); [| exact Hti].
           destruct Hti as [Hti Hmi]. split; [exact Hti | congruence].
      * intros i i' ti ti' Hi Hi' Hhi Hhi'.
        apply list_lookup_insert_Some in Hi as [(<- & <- & _) | (Hne & Hi)];
          [congruence |].
        apply list_lookup_insert_Some in Hi' as [(<- & <- & _) | (Hne' & Hi')];
          [congruence |].
        eapply Hexcl; eassumption.
Qed.


(** *** A critical section is one unit *)



















End Interleavings.


(** The payment of [in_flight], run alone from the state in which it
    takes the mutex, ends on 850 and 0; in [in_flight_mid] the debit is
    made and the transfer has logged a line in between. *)
Example in_flight_ledger :
  ledger_of (run (code (thread_at in_flight 0)) (shared in_flight))
  = Some (850, 0) /\
  (money (shared in_flight_mid), bank (shared in_flight_mid),
   length (stdout (shared in_flight_mid))) = (850, 0, 1%nat).
Proof. split; vm_compute; reflexivity. Qed.

(** The model at work on [two_requests]. Once the payment has taken the
    mutex, the transfer cannot take it; the payment runs to its
    [Unlock] in 8 operations, the transfer in 10, and the counters end on
    650 and 200 whichever of the two goes first. *)
Example transfer_waits : schedule1 1%nat two_requests_mid = None.
Proof. vm_compute. reflexivity. Qed.

Example payment_first :
  option_map (fun s => (money (shared s), bank (shared s), mtx (shared s),
                        map holding (threads s)))
    (schedule [0; 0; 0; 0; 0; 0; 0; 0; 1; 1; 1; 1; 1; 1; 1; 1; 1; 1]%nat
       two_requests)
  = Some (650, 200, false, [false; false]).
Proof. vm_compute. reflexivity. Qed.

Example transfer_first :
  option_map (fun s => (money (shared s), bank (shared s), mtx (shared s),
                        map holding (threads s)))
    (schedule [1; 1; 1; 1; 1; 1; 1; 1; 1; 1; 0; 0; 0; 0; 0; 0; 0; 0]%nat
       two_requests)
  = Some (650, 200, false, [false; false]).
Proof. vm_compute. reflexivity. Qed.

Example payment_interrupted :
  schedule [0; 0; 1]%nat two_requests = None.
Proof. vm_compute. reflexivity. Qed.

(** * Further properties of the code *)

(** ** Request identifiers in the context *)

(** X4: [GetRequestID] after [context.WithValue]. A string bound under
    the key of the package is read back, whatever the context below; a
    binding under a key of another type, were its name "requestID" too, or
    under another name, is not seen; a value that is not a string, bound
    under the key, hides an identifier bound below it; and a nil or empty
    context gives the empty string. *)
Theorem GetRequestID_WithValue :
  (forall ctx s,
     GetRequestID (Some (context.WithValue ctx RequestIDContextKey
                           (context.AnyString s))) = s) /\
  (forall ctx name v,
     GetRequestID (Some (context.WithValue ctx (context.ForeignKey name) v))
     = GetRequestID (Some ctx)) /\
  (forall ctx name v,
     name <> "requestID" ->
     GetRequestID (Some (context.WithValue ctx (context.RequestIDKey name) v))
     = GetRequestID (Some ctx)) /\
  (forall ctx z,
     GetRequestID (Some (context.WithValue ctx RequestIDContextKey
                           (context.AnyInt z))) = "") /\
  GetRequestID None = "" /\
  GetRequestID (Some context.Background) = "".
Proof.
  repeat split; try reflexivity.
  intros ctx name v Hne.
  unfold GetRequestID, context.WithValue, RequestIDContextKey.
  cbn [context.Value context.key_eqb].
  apply String.eqb_neq in Hne. rewrite Hne. reflexivity.
Qed.

Lemma GetRequestID_WithValue_witness :
  GetRequestID (Some (context.WithValue context.Background
                        (context.RequestIDKey "traceID") (context.AnyString "x")))
  = GetRequestID (Some context.Background).
Proof.
  destruct GetRequestID_WithValue as (_ & _ & Hname & _).
  apply Hname. discriminate.
Defined.

(** ** The identifier middleware *)

Lemma Get_Set_ (h : http.Header) key value :
  http.Get (http.Set_ h key value) key = value.
Proof. unfold http.Get, http.Set_. now rewrite lookup_insert_eq. Qed.

(** X1: what [RequestIDMiddleware] hands to the next handler, whatever
    that handler and the request. The identifier read from the context
    of the request is the value of the response header "X-Request-ID",
    and it is not empty; the calls already made on the response, its
    other headers, and the method, path, headers and body of the request
    are as they were; the counters, the mutex and the log are not
    touched. *)
Theorem RequestIDMiddleware_hands_over (next : Handler) (w : Recorder)
    (r : Request) (g : Globals) :
  exists id w1 r1 g1,
    run (ServeHTTP (RequestIDMiddleware next) Recorder _ w r) g
    = run (ServeHTTP next Recorder _ w1 r1) g1
    /\ w1 = mkRecorder (http.Set_ (rec_header w) RequestIDHeader id) (rec_calls w)
    /\ r1 = WithContext r (context.WithValue (Context r) RequestIDContextKey
                             (context.AnyString id))
    /\ GetRequestID (Some (Context r1)) = id
    /\ http.Get (rec_header w1) RequestIDHeader = id
    /\ id <> ""
    /\ (forall key, key <> RequestIDHeader ->
                    rec_header w1 !! key = rec_header w !! key)
    /\ (Method r1, URL_Path r1, Header r1, Body r1)
       = (Method r, URL_Path r, Header r, Body r)
    /\ (money g1, bank g1, mtx g1, stdout g1) = (money g, bank g, mtx g, stdout g).
Proof.
  do 4 eexists. split; [apply run_RequestIDMiddleware |].
  cbn zeta. split; [reflexivity |]. split; [reflexivity |].
  split; [reflexivity |]. split; [apply Get_Set_ |].
  split; [apply resolved_id_nonempty |].
  split.
  - intros key Hne.
    cbn [rec_header http.PutHeader http.Header_ Recorder_ResponseWriter].
    unfold http.Set_. now rewrite lookup_insert_ne by congruence.
  - split; [reflexivity |]. destruct (_ || _); reflexivity.
Qed.

(** X2: a header value that is neither empty nor the single space is
    reused as it is, and the random source is not read: the next handler
    runs from the very state the middleware was entered in. *)
Theorem RequestIDMiddleware_reuses {W : Type} `{RW : http.ResponseWriter W}
    (next : Handler) (w : W) (r : Request) (g : Globals) (h : string) :
  http.Get (Header r) RequestIDHeader = h -> h <> "" -> h <> " " ->
  run (ServeHTTP (RequestIDMiddleware next) W _ w r) g
  = run (ServeHTTP next W _
           (http.PutHeader (http.Set_ (http.Header_ w) RequestIDHeader h) w)
           (WithContext r (context.WithValue (Context r) RequestIDContextKey
                             (context.AnyString h))))
        g.
Proof.
  intros Hh H1 H2. rewrite run_RequestIDMiddleware. cbn zeta. rewrite Hh.
  rewrite resolved_id_reuse by assumption.
  destruct (String.eqb_spec h ""); [contradiction |].
  destruct (String.eqb_spec h " "); [contradiction |]. reflexivity.
Qed.

Lemma RequestIDMiddleware_reuses_witness :
  run (ServeHTTP (RequestIDMiddleware (HandlerFunc (@payHandler))) Recorder _
         NewRecorder (with_header (post "/pay" "150") RequestIDHeader "abc-123"))
      (initial [] ff_entropy)
  = run (ServeHTTP (HandlerFunc (@payHandler)) Recorder _
           (http.PutHeader
              (http.Set_ (http.Header_ NewRecorder) RequestIDHeader "abc-123")
              NewRecorder)
           (WithContext (with_header (post "/pay" "150") RequestIDHeader "abc-123")
              (context.WithValue
                 (Context (with_header (post "/pay" "150") RequestIDHeader "abc-123"))
                 RequestIDContextKey (context.AnyString "abc-123"))))
        (initial [] ff_entropy).
Proof.
  apply (RequestIDMiddleware_reuses (HandlerFunc (@payHandler)) NewRecorder
           (with_header (post "/pay" "150") RequestIDHeader "abc-123")
           (initial [] ff_entropy) "abc-123").
  - vm_compute. reflexivity.
  - discriminate.
  - discriminate.
Defined.

(** *** The generated identifier *)

Lemma sextet_url_safe n : url_safe (base64.sextet n) = true.
Proof.
  unfold base64.sextet.
  assert (Hb : 0 <= Z.land n 63 < 64).
  { change 63 with (Z.ones 6). rewrite Z.land_ones by lia.
    change (2 ^ 6) with 64. apply Z.mod_pos_bound. lia. }
  assert (Hi : (Z.to_nat (Z.land n 63) < 64)%nat) by lia.
  generalize dependent (Z.to_nat (Z.land n 63)). intros i Hi.
  do 64 (destruct i as [| i]; [reflexivity |]). lia.
Qed.

Lemma EncodeToString_shape (l : list Byte.byte) :
  String.length (base64.EncodeToString l) = ((4 * length l + 2) / 3)%nat /\
  forallb url_safe (list_ascii_of_string (base64.EncodeToString l)) = true.
Proof.
  assert (Hle : exists n, (length l <= n)%nat) by (exists (length l); lia).
  destruct Hle as [n Hle]. revert l Hle.
  induction n as [n IH] using lt_wf_ind. intros l Hle.
  destruct l as [| a [| b [| c rest]]].
  - split; reflexivity.
  - split; [reflexivity |].
    cbn [base64.EncodeToString list_ascii_of_string forallb].
    now rewrite !sextet_url_safe.
  - split; [reflexivity |].
    cbn [base64.EncodeToString list_ascii_of_string forallb].
    now rewrite !sextet_url_safe.
  - cbn [length] in Hle.
    destruct (IH (length rest) ltac:(lia) rest ltac:(lia)) as [Hlen Hsafe].
    split.
    + cbn [base64.EncodeToString String.length length]. rewrite Hlen.
      replace (4 * S (S (S (length rest))) + 2)%nat
        with ((4 * length rest + 2) + 4 * 3)%nat by lia.
      rewrite Nat.div_add by lia. lia.
    + cbn [base64.EncodeToString list_ascii_of_string forallb].
      now rewrite !sextet_url_safe, Hsafe.
Qed.

(** X3: when the header "X-Request-ID" is absent, empty or a single
    space, the middleware reads the random source once, for 16 bytes. If
    the read fails the identifier is "fallback-id"; otherwise it is the
    encoding of the 16 bytes, 22 characters long, all of them letters,
    digits, '-' or '_'. *)
Theorem RequestIDMiddleware_generates {W : Type} `{RW : http.ResponseWriter W}
    (next : Handler) (w : W) (r : Request) (g : Globals) :
  Header r !! RequestIDHeader = None
  \/ http.Get (Header r) RequestIDHeader = ""
  \/ http.Get (Header r) RequestIDHeader = " " ->
  exists id,
    run (ServeHTTP (RequestIDMiddleware next) W _ w r) g
    = run (ServeHTTP next W _
             (http.PutHeader (http.Set_ (http.Header_ w) RequestIDHeader id) w)
             (WithContext r (context.WithValue (Context r) RequestIDContextKey
                               (context.AnyString id))))
          (set_entropy (fun n => entropy g (S n)) g)
    /\ match entropy g O with
       | None => id = "fallback-id"
       | Some f =>
           id = base64.EncodeToString (map f (seq 0 16))
           /\ String.length id = 22%nat
           /\ forallb url_safe (list_ascii_of_string id) = true
       end.
Proof.
  intros Hh.
  assert (Hgen : String.eqb (http.Get (Header r) RequestIDHeader) ""
                 || String.eqb (http.Get (Header r) RequestIDHeader) " " = true).
  { destruct Hh as [Hh | [Hh | Hh]].
    - unfold http.Get. rewrite Hh. reflexivity.
    - rewrite Hh. reflexivity.
    - rewrite Hh. reflexivity. }
  eexists. split.
  - rewrite run_RequestIDMiddleware. cbn zeta. rewrite Hgen. reflexivity.
  - unfold resolved_id. rewrite Hgen. unfold rand.Read. cbn [fst].
    destruct (entropy g O) as [f |]; [| reflexivity].
    split; [reflexivity |].
    split; [reflexivity | apply EncodeToString_shape].
Qed.

Lemma RequestIDMiddleware_generates_witness :
  exists id,
    run (ServeHTTP (RequestIDMiddleware (HandlerFunc (@payHandler))) Recorder _
           NewRecorder (post "/pay" "150")) (initial [] ff_entropy)
    = run (ServeHTTP (HandlerFunc (@payHandler)) Recorder _
             (http.PutHeader
                (http.Set_ (http.Header_ NewRecorder) RequestIDHeader id) NewRecorder)
             (WithContext (post "/pay" "150")
                (context.WithValue (Context (post "/pay" "150")) RequestIDContextKey
                   (context.AnyString id))))
          (set_entropy (fun n => entropy (initial [] ff_entropy) (S n))
             (initial [] ff_entropy))
    /\ match entropy (initial [] ff_entropy) O with
       | None => id = "fallback-id"
       | Some f =>
           id = base64.EncodeToString (map f (seq 0 16))
           /\ String.length id = 22%nat
           /\ forallb url_safe (list_ascii_of_string id) = true
       end.
Proof.
  apply (RequestIDMiddleware_generates (HandlerFunc (@payHandler)) NewRecorder
           (post "/pay" "150") (initial [] ff_entropy)).
  left. vm_compute. reflexivity.
Defined.

(** ** The log of a request *)

Lemma payHandler_logs_once {W : Type} `{RW : http.ResponseWriter W} (w : W) r g :
  mtx g = false ->
  exists body l g',
    run (payHandler w r) g = Some (http.Write body w, g')
    /\ stdout g' = (stdout g ++ [l])%list
    /\ log_id l = GetRequestID (Some (Context r)).
Proof.
  intros Hm. destruct (io.ReadAll (Body r)) as [data [err |]] eqn:Hb.
  - do 3 eexists. split; [apply (payHandler_read_error w r g data err Hb) |].
    split; reflexivity.
  - destruct (strconv.Atoi data) as [a |] eqn:Ha.
    + destruct (Z_le_gt_dec a (money g)) as [Hle | Hgt].
      * do 3 eexists.
        split; [apply (payHandler_success w r g data a); assumption |].
        split; reflexivity.
      * do 3 eexists.
        split; [apply (payHandler_low w r g data a); (assumption || lia) |].
        split; reflexivity.
    + do 3 eexists. split; [apply (payHandler_parse_error w r g data Hb Ha) |].
      split; reflexivity.
Qed.

Lemma saveHandler_logs_once {W : Type} `{RW : http.ResponseWriter W} (w : W) r g :
  mtx g = false ->
  exists body l g',
    run (saveHandler w r) g = Some (http.Write body w, g')
    /\ stdout g' = (stdout g ++ [l])%list
    /\ log_id l = GetRequestID (Some (Context r)).
Proof.
  intros Hm. destruct (io.ReadAll (Body r)) as [data [err |]] eqn:Hb.
  - do 3 eexists. split; [apply (saveHandler_read_error w r g data err Hb) |].
    split; reflexivity.
  - destruct (strconv.Atoi data) as [a |] eqn:Ha.
    + destruct (Z_le_gt_dec a (money g)) as [Hle | Hgt].
      * do 3 eexists.
        split; [apply (saveHandler_success w r g data a); assumption |].
        split; reflexivity.
      * do 3 eexists.
        split; [apply (saveHandler_low w r g data a); (assumption || lia) |].
        split; reflexivity.
    + do 3 eexists. split; [apply (saveHandler_parse_error w r g data Hb Ha) |].
      split; reflexivity.
Qed.

(** X5: a request served on either route, whatever it is, adds exactly
    three lines to the log: "Start", the line of the handler, "End" with
    status 200. The three carry the same identifier, which is also the
    value of the response header "X-Request-ID", and is not empty. *)
Theorem route_logs_three_lines (rt : Route) (w : Recorder) (r : Request)
    (g : Globals) :
  mtx g = false ->
  exists id l w' g',
    run (ServeHTTP (route rt) Recorder _ w r) g = Some (w', g')
    /\ stdout g' = (stdout g ++ [LogStart id (Method r) (URL_Path r); l;
                                 LogEnd id (Method r) (URL_Path r) 200])%list
    /\ log_id l = id
    /\ http.Get (rec_header w') RequestIDHeader = id
    /\ id <> "".
Proof.
  intros Hm.
  exists (resolved_id (http.Get (Header r) RequestIDHeader)
            (fst (rand.Read 16 (entropy g)))).
  destruct rt; unfold route, payHandlerChain, saveHandlerChain;
    rewrite run_RequestIDMiddleware, run_LoggingMiddleware; cbn zeta;
    set (id := resolved_id _ _);
    match goal with
    | |- context [set_stdout ?l (if ?c then ?a else ?b)] =>
        set (g2 := set_stdout l (if c then a else b));
        assert (Hm2 : mtx g2 = false) by (subst g2; destruct c; assumption);
        assert (Hout : stdout g2
                       = (stdout g ++ [LogStart id (Method r) (URL_Path r)])%list)
          by (subst g2; destruct c; reflexivity)
    end;
    cbn [ServeHTTP].
  - match goal with
    | |- context [run (payHandler ?rw ?r1) g2] =>
        destruct (payHandler_logs_once rw r1 g2 Hm2)
          as (body & l & g3 & Hrun & Hlog & Hid)
    end.
    rewrite Hrun. exists l. do 2 eexists. split; [reflexivity |].
    cbn [stdout set_stdout status ResponseWriter http.Write
         responseWriter_ResponseWriter Recorder_ResponseWriter rec_header
         http.PutHeader http.Header_].
    rewrite Hlog, Hout, <- !app_assoc. cbn [app].
    split; [reflexivity |]. split; [exact Hid |].
    split; [apply Get_Set_ | apply resolved_id_nonempty].
  - match goal with
    | |- context [run (saveHandler ?rw ?r1) g2] =>
        destruct (saveHandler_logs_once rw r1 g2 Hm2)
          as (body & l & g3 & Hrun & Hlog & Hid)
    end.
    rewrite Hrun. exists l. do 2 eexists. split; [reflexivity |].
    cbn [stdout set_stdout status ResponseWriter http.Write
         responseWriter_ResponseWriter Recorder_ResponseWriter rec_header
         http.PutHeader http.Header_].
    rewrite Hlog, Hout, <- !app_assoc. cbn [app].
    split; [reflexivity |]. split; [exact Hid |].
    split; [apply Get_Set_ | apply resolved_id_nonempty].
Qed.

Lemma route_logs_three_lines_witness :
  exists id l w' g',
    run (ServeHTTP (route RouteSave) Recorder _ NewRecorder (post "/save" "200"))
        test_state = Some (w', g')
    /\ stdout g' = (stdout test_state ++
                    [LogStart id (Method (post "/save" "200"))
                       (URL_Path (post "/save" "200")); l;
                     LogEnd id (Method (post "/save" "200"))
                       (URL_Path (post "/save" "200")) 200])%list
    /\ log_id l = id
    /\ http.Get (rec_header w') RequestIDHeader = id
    /\ id <> "".
Proof.
  apply (route_logs_three_lines RouteSave NewRecorder (post "/save" "200") test_state).
  reflexivity.
Defined.

(** ** The ledger in 64-bit arithmetic *)

Lemma wrap_eqm z : exists k, int64.wrap z = z + k * 2 ^ 64.
Proof.
  unfold int64.wrap. exists (- ((z + 2 ^ 63) / 2 ^ 64)).
  pose proof (Z.div_mod (z + 2 ^ 63) (2 ^ 64) ltac:(lia)). lia.
Qed.

Lemma wrap_shift z k : int64.wrap (z + k * 2 ^ 64) = int64.wrap z.
Proof.
  unfold int64.wrap.
  replace (z + k * 2 ^ 64 + 2 ^ 63) with (z + 2 ^ 63 + k * 2 ^ 64) by lia.
  now rewrite Z_mod_plus_full.
Qed.

(** X6: whatever the request (amount negative or not, wrap-around or
    not), the save handler keeps the sum of the two counters, as a 64-bit
    sum. *)
Theorem saveHandler_conserves {W : Type} `{RW : http.ResponseWriter W}
    (w : W) (r : Request) (g : Globals) :
  mtx g = false ->
  exists w' g',
    run (saveHandler w r) g = Some (w', g')
    /\ int64.wrap (money g' + bank g') = int64.wrap (money g + bank g).
Proof.
  intros Hm. destruct (io.ReadAll (Body r)) as [data [err |]] eqn:Hb.
  - rewrite (saveHandler_read_error w r g data err Hb). eauto.
  - destruct (strconv.Atoi data) as [a |] eqn:Ha.
    + destruct (Z_le_gt_dec a (money g)) as [Hle | Hgt].
      * rewrite (saveHandler_success w r g data a) by assumption. cbn zeta.
        do 2 eexists. split; [reflexivity |]. cbn [money bank].
        unfold int64.add, int64.neg.
        destruct (wrap_eqm (- a)) as [k1 ->].
        destruct (wrap_eqm (money g + (- a + k1 * 2 ^ 64))) as [k2 ->].
        destruct (wrap_eqm (bank g + a)) as [k3 ->].
        replace (money g + (- a + k1 * 2 ^ 64) + k2 * 2 ^ 64
                 + (bank g + a + k3 * 2 ^ 64))
          with (money g + bank g + (k1 + k2 + k3) * 2 ^ 64) by lia.
        apply wrap_shift.
      * rewrite (saveHandler_low w r g data a) by (assumption || lia). eauto.
    + rewrite (saveHandler_parse_error w r g data Hb Ha). eauto.
Qed.

Lemma saveHandler_conserves_witness :
  exists w' g',
    run (saveHandler NewRecorder (post "/save" "-9223372036854775807")) test_state
    = Some (w', g')
    /\ int64.wrap (money g' + bank g')
       = int64.wrap (money test_state + bank test_state).
Proof.
  apply (saveHandler_conserves NewRecorder (post "/save" "-9223372036854775807")
           test_state).
  reflexivity.
Defined.

(** ** Requests with amounts that are not negative *)

Lemma ledger_ok_in_range B m b :
  B <= int64.max -> ledger_ok B m b -> int64.in_range m /\ int64.in_range b.
Proof.
  unfold ledger_ok, int64.in_range, int64.min, int64.max. lia.
Qed.

Lemma nonneg_amount_parsed r data a :
  nonneg_amount r = true ->
  io.ReadAll (Body r) = (data, None) -> strconv.Atoi data = Some a -> 0 <= a.
Proof.
  unfold nonneg_amount, amount_of. intros Hn Hb Ha. rewrite Hb, Ha in Hn. lia.
Qed.

(** One request on one handler: the balance does not grow and stays
    non-negative; the pay handler leaves the bank counter alone and the
    save handler moves to it what it takes from the balance. *)
Lemma handlers_nonneg_step {W : Type} `{RW : http.ResponseWriter W} (w : W) r g :
  mtx g = false -> nonneg_amount r = true ->
  ledger_ok int64.max (money g) (bank g) ->
  (exists body g', run (payHandler w r) g = Some (http.Write body w, g')
                   /\ mtx g' = false
                   /\ 0 <= money g' <= money g /\ bank g' = bank g) /\
  (exists body g', run (saveHandler w r) g = Some (http.Write body w, g')
                   /\ mtx g' = false
                   /\ 0 <= money g' <= money g
                   /\ money g' + bank g' = money g + bank g).
Proof.
  intros Hm Hn Hok.
  destruct (ledger_ok_in_range _ _ _ (Z.le_refl _) Hok) as [Hrm Hrb].
  destruct Hok as (Hm0 & Hb0 & Hsum).
  destruct (io.ReadAll (Body r)) as [data [err |]] eqn:Hb.
  - rewrite (payHandler_read_error w r g data err Hb),
      (saveHandler_read_error w r g data err Hb).
    split; do 2 eexists; (split; [reflexivity |]);
      cbn [mtx money bank set_stdout]; repeat split; (assumption || lia).
  - destruct (strconv.Atoi data) as [a |] eqn:Ha.
    + pose proof (nonneg_amount_parsed r data a Hn Hb Ha) as Ha0.
      destruct (Z_le_gt_dec a (money g)) as [Hle | Hgt].
      * rewrite (payHandler_success w r g data a),
          (saveHandler_success w r g data a) by assumption.
        cbn zeta.
        split; do 2 eexists; (split; [reflexivity |]); cbn [mtx money bank];
          rewrite debit_exact by (assumption || lia);
          rewrite ?credit_exact
            by (unfold int64.in_range, int64.min, int64.max in *; lia);
          repeat split; lia.
      * rewrite (payHandler_low w r g data a),
          (saveHandler_low w r g data a) by (assumption || lia).
        split; do 2 eexists; (split; [reflexivity |]); cbn [mtx money bank];
          repeat split; lia.
    + rewrite (payHandler_parse_error w r g data Hb Ha),
        (saveHandler_parse_error w r g data Hb Ha).
      split; do 2 eexists; (split; [reflexivity |]);
        cbn [mtx money bank set_stdout]; repeat split; (assumption || lia).
Qed.

(** The same through the chain of either route. *)
Lemma route_nonneg_step (rt : Route) (w : Recorder) r g :
  mtx g = false -> nonneg_amount r = true ->
  ledger_ok int64.max (money g) (bank g) ->
  exists w' g',
    run (ServeHTTP (route rt) Recorder _ w r) g = Some (w', g')
    /\ mtx g' = false
    /\ 0 <= money g' <= money g /\ bank g <= bank g'
    /\ money g' + bank g' <= money g + bank g.
Proof.
  intros Hm Hn Hok.
  destruct rt; unfold route, payHandlerChain, saveHandlerChain;
    rewrite run_RequestIDMiddleware, run_LoggingMiddleware; cbn zeta;
    match goal with
    | |- context [set_stdout ?l (if ?c then ?a else ?b)] =>
        set (g2 := set_stdout l (if c then a else b));
        assert (Hg2 : mtx g2 = false /\ money g2 = money g /\ bank g2 = bank g)
          by (subst g2; destruct c; auto)
    end;
    destruct Hg2 as (Hm2 & Hmoney2 & Hbank2); cbn [ServeHTTP].
  - match goal with
    | |- context [run (payHandler ?rw ?r1) g2] =>
        destruct (handlers_nonneg_step rw r1 g2 Hm2 Hn)
          as [(body & g3 & Hrun & Hm3 & Hmon & Hbk) _];
        [rewrite Hmoney2, Hbank2; exact Hok |]
    end.
    rewrite Hrun. do 2 eexists. split; [reflexivity |].
    cbn [mtx money bank set_stdout]. destruct Hok as (? & ? & ?).
    repeat split; (assumption || lia).
  - match goal with
    | |- context [run (saveHandler ?rw ?r1) g2] =>
        destruct (handlers_nonneg_step rw r1 g2 Hm2 Hn)
          as [_ (body & g3 & Hrun & Hm3 & Hmon & Hsum)];
        [rewrite Hmoney2, Hbank2; exact Hok |]
    end.
    rewrite Hrun. do 2 eexists. split; [reflexivity |].
    cbn [mtx money bank set_stdout]. destruct Hok as (? & ? & ?).
    repeat split; (assumption || lia).
Qed.

(** X7: requests served one after the other, on either route, all with
    amounts that are not negative, from counters that are non-negative
    and whose sum fits in 64 bits: every request is answered, the balance
    never grows and never goes below zero, the bank counter never
    shrinks, and the sum of the two never grows. *)
Theorem serve_all_no_overdraft (reqs : list (Route * Request)) (g : Globals) :
  mtx g = false -> ledger_ok int64.max (money g) (bank g) ->
  forallb (fun x => nonneg_amount (snd x)) reqs = true ->
  exists g',
    serve_all reqs g = Some g'
    /\ mtx g' = false
    /\ 0 <= money g' <= money g /\ bank g <= bank g'
    /\ money g' + bank g' <= money g + bank g.
Proof.
  revert g. induction reqs as [| [rt r] reqs IH]; intros g Hm Hok Hall.
  - exists g. destruct Hok as (? & ? & ?). cbn [serve_all]. repeat split; (assumption || lia).
  - cbn [forallb snd] in Hall. apply andb_prop in Hall as [Hn Hall].
    destruct (route_nonneg_step rt NewRecorder r g Hm Hn Hok)
      as (w' & g1 & Hrun & Hm1 & Hmon & Hbk & Hsum).
    cbn [serve_all]. rewrite Hrun.
    destruct (IH g1 Hm1) as (g' & Hserve & Hm' & Hmon' & Hbk' & Hsum').
    { destruct Hok as (? & ? & ?). unfold ledger_ok. lia. }
    { exact Hall. }
    exists g'. split; [exact Hserve |]. split; [exact Hm' |]. lia.
Qed.

Lemma serve_all_no_overdraft_witness :
  exists g',
    serve_all [(RoutePay, post "/pay" "150"); (RouteSave, post "/save" "200");
               (RoutePay, post "/pay" "5000"); (RouteSave, post "/save" "x")]
      test_state = Some g'
    /\ mtx g' = false
    /\ 0 <= money g' <= money test_state /\ bank test_state <= bank g'
    /\ money g' + bank g' <= money test_state + bank test_state.
Proof.
  apply (serve_all_no_overdraft
           [(RoutePay, post "/pay" "150"); (RouteSave, post "/save" "200");
            (RoutePay, post "/pay" "5000"); (RouteSave, post "/save" "x")]
           test_state).
  - reflexivity.
  - unfold ledger_ok. vm_compute. repeat split; discriminate.
  - vm_compute. reflexivity.
Defined.

Example serve_all_example :
  option_map (fun g => (money g, bank g, length (stdout g)))
    (serve_all [(RoutePay, post "/pay" "150"); (RouteSave, post "/save" "200");
                (RoutePay, post "/pay" "5000"); (RouteSave, post "/save" "x")]
       test_state)
  = Some (650, 200, 12%nat).
Proof. vm_compute. reflexivity. Qed.

(** ** Interleavings never block *)

Section Progress.

Context {W : Type} `{RW : http.ResponseWriter W}.

Lemma locked_can_step (p : Prog W) g :
  locked p -> mtx g = true -> exists k g', step1 p g = Some (k, g').
Proof.
  intros Hl Hm. destruct Hl; cbn [step1]; rewrite ?Hm; eauto.
Qed.

Lemma unlocked_can_step (p : Prog W) g :
  unlocked p -> mtx g = false ->
  (exists r, p = Return r) \/ exists k g', step1 p g = Some (k, g').
Proof.
  intros Hu Hm. destruct Hu; cbn [step1]; rewrite ?Hm; eauto.
Qed.

Lemma schedule1_can_step (s : System W) i t k g' :
  threads s !! i = Some t -> step1 (code t) (shared s) = Some (k, g') ->
  exists s', schedule1 i s = Some s'.
Proof.
  intros Hi Hs. unfold schedule1, thread_step. rewrite Hi, Hs. eauto.
Qed.

Lemma not_all_returned (l : list (Thread W)) :
  forallb returned l = false ->
  exists i t, l !! i = Some t /\ returned t = false.
Proof.
  induction l as [| t l IH]; cbn [forallb]; [discriminate |].
  destruct (returned t) eqn:Hr; cbn [andb].
  - intros Hl. destruct (IH Hl) as (i & t' & Hi & Hr').
    exists (S i), t'. auto.
  - intros _. exists O, t. auto.
Qed.

Lemma schedule1_holder_exists (j : nat) (s s' : System W) :
  disciplined s -> holder_exists s -> schedule1 j s = Some s' ->
  holder_exists s'.
Proof.
  intros [Hdisc Hexcl] Hhold Hstep. unfold schedule1 in Hstep.
  destruct (threads s !! j) as [t |] eqn:Hj; [| discriminate].
  destruct (thread_step t (shared s)) as [[t' g'] |] eqn:Hts; [| discriminate].
  injection Hstep as <-. unfold holder_exists. cbn [threads shared].
  pose proof (lookup_lt_Some _ _ _ Hj) as Hlt.
  pose proof (Hdisc j t Hj) as Ht. intros Hm'.
  destruct (holding t) eqn:Hh.
  - destruct Ht as [Hl Hm].
    destruct (locked_step t t' _ _ Hl Hts)
      as [(_ & _ & Hfree) | (Hh' & _ & _)]; [congruence |].
    exists j, t'. split; [now apply list_lookup_insert_eq | congruence].
  - destruct (unlocked_step t t' _ _ Ht Hts)
      as [(Hh' & _) | (_ & _ & Hsame & _)].
    + exists j, t'. split; [now apply list_lookup_insert_eq | exact Hh'].
    + destruct Hhold as (i & ti & Hi & Hhi); [congruence |].
      exists i, ti. split; [| exact Hhi].
      rewrite list_lookup_insert_ne; [exact Hi |]. intros ->. congruence.
Qed.

Lemma schedule_holder_exists (sched : list nat) (s s' : System W) :
  disciplined s -> holder_exists s -> schedule sched s = Some s' ->
  disciplined s' /\ holder_exists s'.
Proof.
  revert s. induction sched as [| i sched IH]; intros s Hd Hh Hs;
    cbn [schedule] in Hs.
  - injection Hs as <-. auto.
  - destruct (schedule1 i s) as [s1 |] eqn:H1; [| discriminate].
    eapply IH; [| | exact Hs].
    + eapply schedule1_disciplined; eassumption.
    + eapply schedule1_holder_exists; eassumption.
Qed.

(** X9: the requests never block one another for good. In every state
    that an interleaving of pay and save requests can reach, either
    every request has been answered or some goroutine can make its next
    operation: a mutex that is held is held by a goroutine that can go on
    to its [Unlock]. *)
Theorem no_deadlock (s0 s : System W) (sched : list nat) :
  initial_system s0 -> schedule sched s0 = Some s ->
  forallb returned (threads s) = true \/ exists i s', schedule1 i s = Some s'.
Proof.
  intros Hinit Hsched.
  destruct (schedule_holder_exists sched s0 s) as [[Hdisc Hexcl] Hhold];
    [apply initial_disciplined, Hinit | | exact Hsched |].
  { intros Hm. destruct Hinit as [Hfree _]. congruence. }
  destruct (mtx (shared s)) eqn:Hm.
  - right. destruct (Hhold Hm) as (i & t & Hi & Hh).
    pose proof (Hdisc i t Hi) as Ht. rewrite Hh in Ht. destruct Ht as [Hl _].
    destruct (locked_can_step (code t) (shared s) Hl Hm) as (k & g' & Hs).
    exists i. eapply schedule1_can_step; eassumption.
  - destruct (forallb returned (threads s)) eqn:Hall; [left; reflexivity |].
    right. destruct (not_all_returned _ Hall) as (i & t & Hi & Hr).
    pose proof (Hdisc i t Hi) as Ht.
    destruct (holding t); [destruct Ht; congruence |].
    destruct (unlocked_can_step (code t) (shared s) Ht Hm)
      as [[r Hret] | (k & g' & Hs)].
    + unfold returned in Hr. rewrite Hret in Hr. discriminate.
    + exists i. eapply schedule1_can_step; eassumption.
Qed.

End Progress.

Lemma no_deadlock_witness :
  forallb returned (threads two_requests_mid) = true
  \/ exists i s', schedule1 i two_requests_mid = Some s'.
Proof.
  apply (no_deadlock two_requests two_requests_mid [0; 0; 0]%nat).
  - split; [reflexivity |]. repeat constructor.
  - vm_compute. reflexivity.
Defined.

(** ** No overdraft under interleaving *)

Lemma cs_safe_ok {R : Type} B (p : Prog R) m b : cs_safe B p m b -> ledger_ok B m b.
Proof. now destruct 1. Qed.

Lemma quiet_out_safe {R : Type} B (p : Prog R) : quiet p -> out_safe B p.
Proof. induction 1; constructor; auto. Qed.

Lemma cs_safe_call {A R : Type} B (p : Prog A) (k : A -> Prog R) m b :
  cs_safe B p m b -> (forall a, quiet (k a)) -> cs_safe B (call p k) m b.
Proof.
  intros Hp Hk. induction Hp; cbn [call]; constructor; auto using quiet_call.
Qed.

Lemma out_safe_call {A R : Type} B (p : Prog A) (k : A -> Prog R) :
  out_safe B p -> (forall a, quiet (k a)) -> out_safe B (call p k).
Proof.
  intros Hp Hk. induction Hp; cbn [call];
    auto using quiet_out_safe; constructor; auto using cs_safe_call.
Qed.

Section Overdraft.

Context {W : Type} `{RW : http.ResponseWriter W}.
Variable B : Z.
Hypothesis HB : B <= int64.max.

Lemma payHandler_out_safe (w : W) r :
  nonneg_amount r = true -> out_safe B (payHandler w r).
Proof.
  intros Hn. unfold payHandler.
  destruct (io.ReadAll (Body r)) as [data [err |]] eqn:Hb.
  - repeat constructor.
  - destruct (strconv.Atoi data) as [a |] eqn:Ha; [| repeat constructor].
    pose proof (nonneg_amount_parsed r data a Hn Hb Ha) as Ha0.
    apply out_Lock. intros m b Hok.
    destruct (ledger_ok_in_range B m b HB Hok) as [Hrm _].
    apply cs_money_Load; [exact Hok |].
    destruct (Z.geb_spec m a) as [Hge | Hlt].
    + assert (Hok' : ledger_ok B (m - a) b) by (unfold ledger_ok in *; lia).
      apply cs_money_Add; [exact Hok |].
      rewrite debit_exact by (assumption || lia).
      repeat (constructor; try assumption).
    + repeat (constructor; try assumption).
Qed.

Lemma saveHandler_out_safe (w : W) r :
  nonneg_amount r = true -> out_safe B (saveHandler w r).
Proof.
  intros Hn. unfold saveHandler.
  destruct (io.ReadAll (Body r)) as [data [err |]] eqn:Hb.
  - repeat constructor.
  - destruct (strconv.Atoi data) as [a |] eqn:Ha; [| repeat constructor].
    pose proof (nonneg_amount_parsed r data a Hn Hb Ha) as Ha0.
    apply out_Lock. intros m b Hok.
    destruct (ledger_ok_in_range B m b HB Hok) as [Hrm Hrb].
    apply cs_money_Load; [exact Hok |].
    destruct (Z.geb_spec m a) as [Hge | Hlt].
    + assert (Hok1 : ledger_ok B (m - a) b) by (unfold ledger_ok in *; lia).
      assert (Hok2 : ledger_ok B (m - a) (b + a)) by (unfold ledger_ok in *; lia).
      apply cs_money_Add; [exact Hok |].
      rewrite debit_exact by (assumption || lia).
      apply cs_bank_Add; [exact Hok1 |].
      rewrite credit_exact
        by (unfold ledger_ok, int64.in_range, int64.min, int64.max in *; lia).
      repeat (constructor; try assumption).
    + repeat (constructor; try assumption).
Qed.

End Overdraft.

Lemma chain_out_safe (B : Z) (next : Handler) :
  (forall W RW w r, nonneg_amount r = true ->
                    out_safe B (ServeHTTP next W RW w r)) ->
  forall W RW w r,
    nonneg_amount r = true ->
    out_safe B (ServeHTTP (RequestIDMiddleware (LoggingMiddleware next)) W RW w r).
Proof.
  intros Hnext W RW w r Hn.
  assert (Hlog : forall w ctx,
             out_safe B (ServeHTTP (LoggingMiddleware next) W RW w
                           (WithContext r ctx))).
  { intros w1 ctx. cbn [ServeHTTP LoggingMiddleware].
    apply out_Printf, out_safe_call; [apply Hnext; exact Hn |].
    intros rw. repeat constructor. }
  cbn [ServeHTTP RequestIDMiddleware].
  destruct (String.eqb _ "" || String.eqb _ " ").
  - unfold generateRequestID. apply out_Read. intros [b |]; apply Hlog.
  - apply Hlog.
Qed.

Section OverdraftInterleavings.

Context {W : Type} `{RW : http.ResponseWriter W}.
Variable B : Z.
Hypothesis HB : B <= int64.max.

Lemma serving_nonneg_serving (t : Thread W) : serving_nonneg t -> serving t.
Proof. intros [w r _ | w r _ | w r _ | w r _]; constructor. Qed.

Lemma serving_nonneg_out_safe (t : Thread W) :
  serving_nonneg t -> holding t = false /\ out_safe B (code t).
Proof.
  intros [w r Hn | w r Hn | w r Hn | w r Hn]; (split; [reflexivity |]); cbn [code].
  - now apply payHandler_out_safe.
  - now apply saveHandler_out_safe.
  - apply (chain_out_safe B (HandlerFunc (@payHandler))); [| exact Hn].
    intros; now apply payHandler_out_safe.
  - apply (chain_out_safe B (HandlerFunc (@saveHandler))); [| exact Hn].
    intros; now apply saveHandler_out_safe.
Qed.

(** One operation of the goroutine in its critical section. *)
Lemma cs_safe_thread_step (t t' : Thread W) g g' :
  holding t = true -> cs_safe B (code t) (money g) (bank g) ->
  thread_step t g = Some (t', g') ->
  ledger_ok B (money g') (bank g') /\
  (if holding t' then cs_safe B (code t') (money g') (bank g')
   else out_safe B (code t')).
Proof.
  unfold thread_step. destruct t as [h p]; cbn [code holding].
  intros -> Hcs Hs.
  remember (money g) as m eqn:Hm. remember (bank g) as b eqn:Hbk.
  destruct Hcs; cbn [step1] in Hs; subst m b.
  - destruct (mtx g); [| discriminate]. injection Hs as <- <-.
    cbn. auto using quiet_out_safe.
  - injection Hs as <- <-. cbn. auto.
  - injection Hs as <- <-. cbn. eauto using cs_safe_ok.
  - injection Hs as <- <-. cbn. auto.
  - injection Hs as <- <-. cbn. eauto using cs_safe_ok.
  - injection Hs as <- <-. cbn. auto.
  - destruct (rand.Read n (entropy g)) as [x src].
    injection Hs as <- <-. cbn. auto.
Qed.

(** One operation of a goroutine outside its critical section. *)
Lemma out_safe_thread_step (t t' : Thread W) g g' :
  holding t = false -> out_safe B (code t) ->
  ledger_ok B (money g) (bank g) ->
  thread_step t g = Some (t', g') ->
  money g' = money g /\ bank g' = bank g /\
  (if holding t' then cs_safe B (code t') (money g') (bank g')
   else out_safe B (code t')).
Proof.
  unfold thread_step. destruct t as [h p]; cbn [code holding].
  intros -> Hout Hok Hs. destruct Hout; cbn [step1] in Hs.
  - discriminate.
  - destruct (mtx g); [discriminate |]. injection Hs as <- <-. cbn. auto.
  - injection Hs as <- <-. cbn. auto.
  - destruct (rand.Read n (entropy g)) as [x src].
    injection Hs as <- <-. cbn. auto.
Qed.

Lemma schedule1_safe (j : nat) (s s' : System W) :
  disciplined s -> safe_system B s -> schedule1 j s = Some s' ->
  safe_system B s'.
Proof.
  intros [Hdisc Hexcl] [Hok Hsafe] Hstep. unfold schedule1 in Hstep.
  destruct (threads s !! j) as [t |] eqn:Hj; [| discriminate].
  destruct (thread_step t (shared s)) as [[t' g'] |] eqn:Hts; [| discriminate].
  injection Hstep as <-. unfold safe_system. cbn [threads shared].
  pose proof (Hsafe j t Hj) as Ht.
  destruct (holding t) eqn:Hh.
  - destruct (cs_safe_thread_step t t' _ _ Hh Ht Hts) as [Hok' Ht'].
    split; [exact Hok' |].
    intros i ti Hi. apply list_lookup_insert_Some in Hi
      as [(<- & <- & _) | (Hne & Hi)]; [exact Ht' |].
    pose proof (Hsafe i ti Hi) as Hti.
    destruct (holding ti) eqn:Hhi; [| exact Hti].
    exfalso. apply Hne. eapply Hexcl; eassumption.
  - destruct (out_safe_thread_step t t' _ _ Hh Ht Hok Hts)
      as (Hmoney & Hbank & Ht').
    split; [rewrite Hmoney, Hbank; exact Hok |].
    intros i ti Hi. apply list_lookup_insert_Some in Hi
      as [(<- & <- & _) | (Hne & Hi)]; [exact Ht' |].
    pose proof (Hsafe i ti Hi) as Hti.
    destruct (holding ti); [rewrite Hmoney, Hbank |]; exact Hti.
Qed.

Lemma schedule_safe (sched : list nat) (s s' : System W) :
  disciplined s -> safe_system B s -> schedule sched s = Some s' ->
  safe_system B s'.
Proof.
  revert s. induction sched as [| i sched IH]; intros s Hd Hsafe Hs;
    cbn [schedule] in Hs.
  - now injection Hs as <-.
  - destruct (schedule1 i s) as [s1 |] eqn:H1; [| discriminate].
    eapply IH; [| | exact Hs].
    + eapply schedule1_disciplined; eassumption.
    + eapply schedule1_safe; eassumption.
Qed.

(** X8: any number of pay and save requests served concurrently, all
    with amounts that are not negative, from counters that are
    non-negative with a sum of at most [B] (itself within 64 bits): in
    every state that an interleaving of their operations can reach, in
    the middle of a critical section too, the balance and the bank
    counter are non-negative and their sum is at most [B]. *)
Theorem concurrent_no_overdraft (s0 s : System W) (sched : list nat) :
  mtx (shared s0) = false ->
  ledger_ok B (money (shared s0)) (bank (shared s0)) ->
  Forall serving_nonneg (threads s0) ->
  schedule sched s0 = Some s ->
  ledger_ok B (money (shared s)) (bank (shared s)).
Proof.
  intros Hm Hok Hall Hsched.
  apply (schedule_safe sched s0 s); [| | exact Hsched].
  - apply initial_disciplined. split; [exact Hm |].
    eapply Forall_impl; [exact Hall |]. apply serving_nonneg_serving.
  - split; [exact Hok |]. intros i t Hi.
    destruct (serving_nonneg_out_safe t) as [Hh Hout].
    { eapply Forall_lookup_1; eassumption. }
    rewrite Hh. exact Hout.
Qed.

End OverdraftInterleavings.

Lemma concurrent_no_overdraft_witness :
  ledger_ok 1000 (money (shared two_requests_mid)) (bank (shared two_requests_mid)).
Proof.
  apply (concurrent_no_overdraft 1000 ltac:(vm_compute; discriminate)
           two_requests two_requests_mid [0; 0; 0]%nat).
  - reflexivity.
  - unfold ledger_ok. vm_compute. repeat split; discriminate.
  - constructor; [apply serving_nonneg_pay; reflexivity |].
    constructor; [apply serving_nonneg_save; reflexivity |]. constructor.
  - vm_compute. reflexivity.
Defined.

(** Fifty payments of 10 in flight from a balance of 1000, as in the
    concurrency test, after the first one has taken the mutex, made its
    check and debited the balance. *)
Example fifty_payments :
  option_map (fun s => (money (shared s), bank (shared s), mtx (shared s)))
    (schedule [7; 7; 7]%nat
       (mkSystem test_state
          (replicate 50 (mkThread false (payHandler NewRecorder (post "/pay" "10"))))))
  = Some (990, 0, true).
Proof. vm_compute. reflexivity. Qed.

(** ** The middleware chain and the handler it wraps *)

(** The body a handler writes and what it does to the counters depend on
    the body of the request and on the counters only: not on the response
    writer, the context, the log or the random source. *)
Lemma payHandler_uniform {W1 W2 : Type} `{RW1 : http.ResponseWriter W1}
    `{RW2 : http.ResponseWriter W2} (w1 : W1) (w2 : W2) r1 r2 g1 g2 :
  Body r1 = Body r2 -> money g1 = money g2 -> bank g1 = bank g2 ->
  mtx g1 = false -> mtx g2 = false ->
  exists body g1' g2',
    run (payHandler w1 r1) g1 = Some (http.Write body w1, g1')
    /\ run (payHandler w2 r2) g2 = Some (http.Write body w2, g2')
    /\ (money g1', bank g1', mtx g1') = (money g2', bank g2', mtx g2').
Proof.
  intros Hbody Hmoney Hbank Hm1 Hm2.
  destruct (io.ReadAll (Body r1)) as [data [err |]] eqn:Hb1;
    pose proof Hb1 as Hb2; rewrite Hbody in Hb2.
  - rewrite (payHandler_read_error w1 r1 g1 data err Hb1),
      (payHandler_read_error w2 r2 g2 data err Hb2).
    do 3 eexists. split; [reflexivity |]. split; [reflexivity |].
    cbn [money bank mtx set_stdout]. congruence.
  - destruct (strconv.Atoi data) as [a |] eqn:Ha.
    + destruct (Z_le_gt_dec a (money g1)) as [Hle | Hgt].
      * rewrite (payHandler_success w1 r1 g1 data a),
          (payHandler_success w2 r2 g2 data a) by (assumption || lia).
        cbn zeta. rewrite Hmoney, Hbank.
        do 3 eexists. split; [reflexivity |]. split; reflexivity.
      * rewrite (payHandler_low w1 r1 g1 data a),
          (payHandler_low w2 r2 g2 data a) by (assumption || lia).
        do 3 eexists. split; [reflexivity |]. split; [reflexivity |].
        cbn [money bank mtx]. congruence.
    + rewrite (payHandler_parse_error w1 r1 g1 data Hb1 Ha),
        (payHandler_parse_error w2 r2 g2 data Hb2 Ha).
      do 3 eexists. split; [reflexivity |]. split; [reflexivity |].
      cbn [money bank mtx set_stdout]. congruence.
Qed.

Lemma saveHandler_uniform {W1 W2 : Type} `{RW1 : http.ResponseWriter W1}
    `{RW2 : http.ResponseWriter W2} (w1 : W1) (w2 : W2) r1 r2 g1 g2 :
  Body r1 = Body r2 -> money g1 = money g2 -> bank g1 = bank g2 ->
  mtx g1 = false -> mtx g2 = false ->
  exists body g1' g2',
    run (saveHandler w1 r1) g1 = Some (http.Write body w1, g1')
    /\ run (saveHandler w2 r2) g2 = Some (http.Write body w2, g2')
    /\ (money g1', bank g1', mtx g1') = (money g2', bank g2', mtx g2').
Proof.
  intros Hbody Hmoney Hbank Hm1 Hm2.
  destruct (io.ReadAll (Body r1)) as [data [err |]] eqn:Hb1;
    pose proof Hb1 as Hb2; rewrite Hbody in Hb2.
  - rewrite (saveHandler_read_error w1 r1 g1 data err Hb1),
      (saveHandler_read_error w2 r2 g2 data err Hb2).
    do 3 eexists. split; [reflexivity |]. split; [reflexivity |].
    cbn [money bank mtx set_stdout]. congruence.
  - destruct (strconv.Atoi data) as [a |] eqn:Ha.
    + destruct (Z_le_gt_dec a (money g1)) as [Hle | Hgt].
      * rewrite (saveHandler_success w1 r1 g1 data a),
          (saveHandler_success w2 r2 g2 data a) by (assumption || lia).
        cbn zeta. rewrite Hmoney, Hbank.
        do 3 eexists. split; [reflexivity |]. split; reflexivity.
      * rewrite (saveHandler_low w1 r1 g1 data a),
          (saveHandler_low w2 r2 g2 data a) by (assumption || lia).
        do 3 eexists. split; [reflexivity |]. split; [reflexivity |].
        cbn [money bank mtx]. congruence.
    + rewrite (saveHandler_parse_error w1 r1 g1 data Hb1 Ha),
        (saveHandler_parse_error w2 r2 g2 data Hb2 Ha).
      do 3 eexists. split; [reflexivity |]. split; [reflexivity |].
      cbn [money bank mtx set_stdout]. congruence.
Qed.

(** X10: the middleware chain is transparent. A request served through
    the chain of a route gets the body the bare handler writes for it, as
    the single call made on the response; the counters and the mutex end
    as the bare handler leaves them; the only change to the response is
    the header "X-Request-ID". *)
Theorem middleware_transparent (rt : Route) (w : Recorder) (r : Request)
    (g : Globals) :
  mtx g = false ->
  exists body id w' g' g0,
    run (ServeHTTP (route rt) Recorder _ w r) g = Some (w', g')
    /\ match rt with
       | RoutePay => run (payHandler w r) g
       | RouteSave => run (saveHandler w r) g
       end = Some (http.Write body w, g0)
    /\ w' = mkRecorder (http.Set_ (rec_header w) RequestIDHeader id)
              (rec_calls w ++ [CallWrite body])
    /\ (money g', bank g', mtx g') = (money g0, bank g0, mtx g0).
Proof.
  intros Hm.
  destruct rt; unfold route, payHandlerChain, saveHandlerChain;
    rewrite run_RequestIDMiddleware, run_LoggingMiddleware; cbn zeta;
    match goal with
    | |- context [set_stdout ?l (if ?c then ?a else ?b)] =>
        set (g2 := set_stdout l (if c then a else b));
        assert (Hg2 : mtx g2 = false /\ money g2 = money g /\ bank g2 = bank g)
          by (subst g2; destruct c; auto)
    end;
    destruct Hg2 as (Hm2 & Hmoney2 & Hbank2); cbn [ServeHTTP].
  - match goal with
    | |- context [run (payHandler ?rw ?r1) g2] =>
        destruct (payHandler_uniform rw w r1 r g2 g eq_refl Hmoney2 Hbank2 Hm2 Hm)
          as (body & g3 & g0 & Hrun & Hbare & Heq)
    end.
    rewrite Hrun, Hbare. exists body. do 4 eexists.
    split; [reflexivity |]. split; [reflexivity |].
    split; [reflexivity |]. exact Heq.
  - match goal with
    | |- context [run (saveHandler ?rw ?r1) g2] =>
        destruct (saveHandler_uniform rw w r1 r g2 g eq_refl Hmoney2 Hbank2 Hm2 Hm)
          as (body & g3 & g0 & Hrun & Hbare & Heq)
    end.
    rewrite Hrun, Hbare. exists body. do 4 eexists.
    split; [reflexivity |]. split; [reflexivity |].
    split; [reflexivity |]. exact Heq.
Qed.

Lemma middleware_transparent_witness :
  exists body id w' g' g0,
    run (ServeHTTP (route RoutePay) Recorder _ NewRecorder (post "/pay" "150"))
        test_state = Some (w', g')
    /\ run (payHandler NewRecorder (post "/pay" "150")) test_state
       = Some (http.Write body NewRecorder, g0)
    /\ w' = mkRecorder (http.Set_ (rec_header NewRecorder) RequestIDHeader id)
              (rec_calls NewRecorder ++ [CallWrite body])
    /\ (money g', bank g', mtx g') = (money g0, bank g0, mtx g0).
Proof.
  apply (middleware_transparent RoutePay NewRecorder (post "/pay" "150") test_state).
  reflexivity.
Defined.

(** ** Payments in flight and the bank counter *)

Section PayOnly.

Context {W : Type} `{RW : http.ResponseWriter W}.

Lemma serving_pay_only_bank_free (t : Thread W) :
  serving_pay_only t -> bank_free (code t).
Proof.
  intros [w r | w r]; cbn [code];
    [apply payHandler_bank_free | apply payHandlerChain_bank_free].
Qed.

Lemma schedule1_bank_free (j : nat) (s s' : System W) :
  Forall (fun t => bank_free (code t)) (threads s) ->
  schedule1 j s = Some s' ->
  bank (shared s') = bank (shared s)
  /\ Forall (fun t => bank_free (code t)) (threads s').
Proof.
  intros Hall Hstep. unfold schedule1, thread_step in Hstep.
  destruct (threads s !! j) as [t |] eqn:Hj; [| discriminate].
  destruct (step1 (code t) (shared s)) as [[k g'] |] eqn:Hs; [| discriminate].
  injection Hstep as <-. cbn [threads shared].
  destruct (bank_free_step (code t) k _ _
              (Forall_lookup_1 _ _ _ _ Hall Hj) Hs) as [Hbank Hk].
  split; [exact Hbank |]. apply Forall_insert; assumption.
Qed.

(** X11: any number of pay requests served concurrently, directly or
    through the middleware chain: in every state an interleaving of their
    operations can reach, the bank counter is what it was at the
    start. *)
Theorem concurrent_payments_keep_bank (s0 s : System W) (sched : list nat) :
  Forall serving_pay_only (threads s0) ->
  schedule sched s0 = Some s ->
  bank (shared s) = bank (shared s0).
Proof.
  intros Hall Hsched.
  assert (Hfree : Forall (fun t => bank_free (code t)) (threads s0)).
  { eapply Forall_impl; [exact Hall |]. apply serving_pay_only_bank_free. }
  clear Hall. revert s0 Hfree Hsched.
  induction sched as [| i sched IH]; intros s0 Hfree Hsched;
    cbn [schedule] in Hsched.
  - now injection Hsched as <-.
  - destruct (schedule1 i s0) as [s1 |] eqn:H1; [| discriminate].
    destruct (schedule1_bank_free i s0 s1 Hfree H1) as [Hbank Hfree1].
    rewrite <- Hbank. now apply IH.
Qed.

End PayOnly.

Lemma concurrent_payments_keep_bank_witness :
  bank (shared (default two_requests
                  (schedule [1; 0; 1; 0; 0]%nat
                     (mkSystem test_state
                        [mkThread false (payHandler NewRecorder (post "/pay" "-100"));
                         mkThread false
                           (ServeHTTP payHandlerChain Recorder _ NewRecorder
                              (post "/pay" "150"))]))))
  = bank (shared (mkSystem test_state
                    [mkThread false (payHandler NewRecorder (post "/pay" "-100"));
                     mkThread false
                       (ServeHTTP payHandlerChain Recorder _ NewRecorder
                          (post "/pay" "150"))])).
Proof.
  apply (concurrent_payments_keep_bank _ _ [1; 0; 1; 0; 0]%nat).
  - constructor; [apply serving_pay_only_bare |].
    constructor; [apply serving_pay_only_chain | constructor].
  - vm_compute. reflexivity.
Defined.
